(** * The REST backend of the photography app (backend/app.py)

    The five Flask handlers built by [create_app] are embedded as programs
    that compute on JSON values with Python's dynamic semantics (truthiness,
    [dict.get], exceptions) and that talk to the outside world (boto3's S3
    and SNS clients, Stripe, the Notion REST API) through explicit calls.
    A handler is a tree of such calls; its runs are the sequences of calls
    and answers it can go through, each ending in an HTTP response. *)

From Stdlib Require Import String Ascii ZArith List Bool Lia.
From Stdlib Require Import SpecFloat DecimalString.
Import ListNotations.

#[local] Set Warnings "-register-all".
Local Open Scope Z_scope.
Local Open Scope list_scope.
Local Open Scope string_scope.

(* ================================================================= *)
(** ** Python values, as far as the handlers see them *)

Module Py.

(** What [json.loads] produces, and what [jsonify] accepts: [None], [bool],
    [int], [float] (a binary64, with its infinities and NaN), [str], [list]
    and [dict].  A [dict] keeps its keys in insertion order; [dict_get]
    below reads the first binding of a key. *)
Inductive json : Type :=
| JNull
| JBool (b : bool)
| JInt (z : Z)
| JFloat (f : spec_float)
| JStr (s : string)
| JList (l : list json)
| JDict (d : list (string * json)).

(** [bool(v)], the test behind [if v:] and [if not v:]. *)
Definition truthy (v : json) : bool :=
  match v with
  | JNull => false
  | JBool b => b
  | JInt z => negb (z =? 0)%Z
  | JFloat (S754_zero _) => false
  | JFloat _ => true
  | JStr "" => false
  | JStr _ => true
  | JList [] => false
  | JList _ => true
  | JDict [] => false
  | JDict _ => true
  end.

(** [type(v).__name__], which Python's error messages quote. *)
Definition type_name (v : json) : string :=
  match v with
  | JNull => "NoneType"
  | JBool _ => "bool"
  | JInt _ => "int"
  | JFloat _ => "float"
  | JStr _ => "str"
  | JList _ => "list"
  | JDict _ => "dict"
  end.

(** The exceptions the handlers can meet.  All of them derive from
    [Exception], so an [except Exception] clause catches each of them;
    [str_exn] is [str(exc)].  [BadRequest] is werkzeug's, raised by
    [request.get_json]; [ServiceError] stands for whatever an SDK or the
    network raises, with its message. *)
Inductive exn : Type :=
| AttributeError (msg : string)
| TypeError (msg : string)
| ValueError (msg : string)
| OverflowError (msg : string)
| BadRequest (msg : string)
| ServiceError (msg : string).

Definition str_exn (e : exn) : string :=
  match e with
  | AttributeError m | TypeError m | ValueError m
  | OverflowError m | BadRequest m | ServiceError m => m
  end.

(** The outcome of evaluating a Python expression. *)
Inductive py (A : Type) : Type :=
| Return (a : A)
| Raise (e : exn).
Arguments Return {A} a.
Arguments Raise {A} e.

Definition py_bind {A B} (x : py A) (f : A -> py B) : py B :=
  match x with
  | Return a => f a
  | Raise e => Raise e
  end.

Fixpoint py_map {A B} (f : A -> py B) (l : list A) : py (list B) :=
  match l with
  | [] => Return []
  | a :: l' =>
      py_bind (f a) (fun b =>
      py_bind (py_map f l') (fun bs => Return (b :: bs)))
  end.

(** Lookup in a [dict] (also in werkzeug's [MultiDict], whose [get] returns
    the first value stored under the key). *)
Fixpoint dict_get {V} (k : string) (d : list (string * V)) : option V :=
  match d with
  | [] => None
  | (k', v) :: d' => if String.eqb k k' then Some v else dict_get k d'
  end.

(** [d.get(k, default)] on a [dict]. *)
Definition lookup (d : list (string * json)) (k : string) (default : json)
  : json :=
  match dict_get k d with
  | Some x => x
  | None => default
  end.

(** [v.get(k, default)]: only a [dict] has the method. *)
Definition get (v : json) (k : string) (default : json) : py json :=
  match v with
  | JDict d => Return (lookup d k default)
  | _ =>
      Raise (AttributeError
               ("'" ++ type_name v ++ "' object has no attribute 'get'"))
  end.

(** [iter(v)], as a [for] loop or a generator expression consumes it: the
    items of a list, the keys of a dict, the characters of a string. *)
Fixpoint chars (s : string) : list json :=
  match s with
  | EmptyString => []
  | String c s' => JStr (String c EmptyString) :: chars s'
  end.

Definition items (v : json) : py (list json) :=
  match v with
  | JList l => Return l
  | JDict d => Return (map (fun kv => JStr (fst kv)) d)
  | JStr s => Return (chars s)
  | _ => Raise (TypeError ("'" ++ type_name v ++ "' object is not iterable"))
  end.

Definition decimal (n : nat) : string :=
  NilEmpty.string_of_uint (Nat.to_uint n).

(** ["".join(parts)]: every part must be a [str]; the first one that is not
    is reported with its position. *)
Fixpoint join_from (i : nat) (parts : list json) : py string :=
  match parts with
  | [] => Return ""
  | JStr s :: rest => py_bind (join_from (S i) rest) (fun t => Return (s ++ t))
  | v :: _ =>
      Raise (TypeError ("sequence item " ++ decimal i
                        ++ ": expected str instance, " ++ type_name v
                        ++ " found"))
  end.

Definition join (parts : list json) : py string := join_from 0 parts.

(** [int(f)] on a float truncates toward zero. *)
Definition int_of_float (f : spec_float) : py Z :=
  match f with
  | S754_zero _ => Return 0
  | S754_infinity _ =>
      Raise (OverflowError "cannot convert float infinity to integer")
  | S754_nan => Raise (ValueError "cannot convert float NaN to integer")
  | S754_finite s m e =>
      let a := if (0 <=? e)%Z then Z.shiftl (Zpos m) e
               else Z.shiftr (Zpos m) (- e) in
      Return (if s then - a else a)
  end.

Section Int.

(** Python's [int] applied to a [str] (surrounding blanks, sign, digit
    groups, the interpreter's length limit, the text of its [ValueError])
    is the interpreter's business and stays a parameter. *)
Variable int_of_str : string -> py Z.

(** [int(v)]. *)
Definition int (v : json) : py Z :=
  match v with
  | JInt z => Return z
  | JBool b => Return (if b then 1 else 0)
  | JFloat f => int_of_float f
  | JStr s => int_of_str s
  | _ =>
      Raise (TypeError
               ("int() argument must be a string, a bytes-like object or a "
                ++ "real number, not '" ++ type_name v ++ "'"))
  end.

End Int.

End Py.

(* ================================================================= *)
(** ** Requests and responses (Flask, werkzeug) *)

Module Http.
Import Py.

(** One uploaded part, werkzeug's [FileStorage].  Its truth value is that
    of its file name ([FileStorage.__bool__] returns [bool(self.filename)]):
    a part sent with an empty file name, as a browser does for a file input
    left empty, is falsy. *)
Record FileStorage : Type := {
  filename : string;
  stream : list Byte.byte
}.

Definition file_truthy (f : FileStorage) : bool :=
  match filename f with
  | "" => false
  | _ => true
  end.

(** The methods under which Flask calls a view registered for GET and POST:
    HEAD comes with GET; OPTIONS is answered by Flask itself. *)
Inductive http_method : Type := GET | HEAD | POST.

Definition is_GET (m : http_method) : bool :=
  match m with
  | GET => true
  | _ => false
  end.

(** The parts of [flask.request] the handlers read: the method, the body
    as [get_json(force=True)] parses it ([None] when it is not JSON), and
    the uploaded files ([request.files], a [MultiDict]). *)
Record request : Type := {
  method : http_method;
  data : option json;
  files : list (string * FileStorage)
}.

Definition get_json (r : request) : py json :=
  match data r with
  | Some v => Return v
  | None =>
      Raise (BadRequest ("The browser (or proxy) sent a request that this "
                         ++ "server could not understand."))
  end.

(** What a view returns: [jsonify(v)] alone is a 200; [jsonify(v), code]
    sets the status. *)
Record response : Type := {
  body : json;
  status : Z
}.

Definition jsonify (v : json) : response := {| body := v; status := 200 |}.

Definition with_status (r : response) (code : Z) : response :=
  {| body := body r; status := code |}.

End Http.

(* ================================================================= *)
(** ** Calls to the outside world *)

Module Ext.
Import Py Http.

(** A boto3 client, as [boto3.client(service, region_name=...)] builds it. *)
Record client : Type := {
  service : string;
  region_name : string
}.

(** What the handlers read of Stripe's [PaymentIntent]. *)
Record payment_intent : Type := {
  client_secret : string
}.

(** What the handlers read of a [requests.Response]; [resp.json()] raises
    when the body is not JSON. *)
Record http_response : Type := {
  status_code : Z;
  text : string;
  json_ : py json
}.

(** The SDK and network calls of the handlers, with the arguments the
    source passes.  [publish] and [generate_presigned_url] take their
    keyword arguments resp. [Params] as the source writes them. *)
Inductive extcall : Type :=
| S3_list_objects_v2 (self : client) (Bucket : string)
| S3_generate_presigned_url
    (self : client) (ClientMethod : string) (Params : json) (ExpiresIn : Z)
| S3_upload_fileobj
    (self : client) (Fileobj : FileStorage) (Bucket : string) (Key : string)
| Stripe_PaymentIntent_create
    (api_key : option string) (amount : Z) (currency : json) (metadata : json)
| SNS_publish (self : client) (kwargs : list (string * json))
| Requests_post
    (url : string) (headers : list (string * string)) (json_arg : json).

(** The type of what each call returns when it does not raise. *)
Definition answer (c : extcall) : Type :=
  match c with
  | S3_list_objects_v2 _ _ => json
  | S3_generate_presigned_url _ _ _ _ => string
  | S3_upload_fileobj _ _ _ _ => unit
  | Stripe_PaymentIntent_create _ _ _ _ => payment_intent
  | SNS_publish _ _ => json
  | Requests_post _ _ _ => http_response
  end.

(** A program: it returns, or makes a call and goes on with the answer,
    which is a value or an exception. *)
Inductive prog (A : Type) : Type :=
| Ret (a : A)
| Call (c : extcall) (k : py (answer c) -> prog A).
Arguments Ret {A} a.
Arguments Call {A} c k.

Fixpoint seq {A B} (p : prog A) (f : A -> prog B) : prog B :=
  match p with
  | Ret a => f a
  | Call c k => Call c (fun r => seq (k r) f)
  end.

(** Python code that makes calls: a program whose result is a value or a
    raised exception. *)
Definition M (A : Type) : Type := prog (py A).

Definition ret {A} (a : A) : M A := Ret (Return a).

Definition lift {A} (x : py A) : M A := Ret x.

Definition call (c : extcall) : M (answer c) := Call c (fun r => Ret r).

Definition bind {A B} (m : M A) (f : A -> M B) : M B :=
  seq m (fun r => match r with
                  | Return a => f a
                  | Raise e => Ret (Raise e)
                  end).

(** [try: m  except Exception as exc: h exc]. *)
Definition try_except {A} (m : M A) (h : exn -> M A) : M A :=
  seq m (fun r => match r with
                  | Return a => Ret (Return a)
                  | Raise e => h e
                  end).

(** A [for] loop that appends one item per element. *)
Fixpoint for_each {A B} (f : A -> M B) (l : list A) : M (list B) :=
  match l with
  | [] => ret []
  | a :: l' =>
      bind (f a) (fun b =>
      bind (for_each f l') (fun bs => ret (b :: bs)))
  end.

(** One call together with its answer. *)
Inductive event : Type :=
| Event (c : extcall) (r : py (answer c)).

(** [runs p t a]: answered as [t] records, [p] makes exactly the calls of
    [t], in that order, and ends with [a]. *)
Fixpoint runs {A} (p : prog A) (t : list event) (a : A) : Prop :=
  match p with
  | Ret a' => t = [] /\ a = a'
  | Call c k => exists r t', t = Event c r :: t' /\ runs (k r) t' a
  end.

(** The outside world as a state machine answering calls. *)
Definition world (W : Type) : Type :=
  forall c : extcall, W -> py (answer c) * W.

(** Running a program against a world: the result, the calls made with
    their answers, and the world left behind. *)
Fixpoint exec {W A} (h : world W) (p : prog A) (w : W)
  : A * list event * W :=
  match p with
  | Ret a => (a, [], w)
  | Call c k =>
      let '(r, w1) := h c w in
      let '(a, t, w2) := exec h (k r) w1 in
      (a, Event c r :: t, w2)
  end.

(** The call of an event returned; it did not raise. *)
Definition answered (e : event) : Prop :=
  match e with
  | Event _ (Return _) => True
  | Event _ (Raise _) => False
  end.

(** Answers of all kinds in one type, to compare the events of a run. *)
Inductive reply : Type :=
| RJson (v : json)
| RString (s : string)
| RUnit
| RIntent (i : payment_intent)
| RResponse (r : http_response).

Definition pack (c : extcall) : answer c -> reply :=
  match c return answer c -> reply with
  | S3_list_objects_v2 _ _ => RJson
  | S3_generate_presigned_url _ _ _ _ => RString
  | S3_upload_fileobj _ _ _ _ => fun _ => RUnit
  | Stripe_PaymentIntent_create _ _ _ _ => RIntent
  | SNS_publish _ _ => RJson
  | Requests_post _ _ _ => RResponse
  end.

Definition event_reply (e : event) : py reply :=
  match e with
  | Event c (Return x) => Return (pack c x)
  | Event c (Raise err) => Raise err
  end.

End Ext.

Declare Scope py_scope.
Delimit Scope py_scope with py.
Notation "x <- e ;; k" := (Py.py_bind e (fun x => k))
  (at level 61, e at next level, right associativity) : py_scope.

Declare Scope prog_scope.
Delimit Scope prog_scope with prog.
Notation "x <- e ;; k" := (Ext.bind e (fun x => k))
  (at level 61, e at next level, right associativity) : prog_scope.

(* ================================================================= *)
(** ** The application: [create_app] and its five views *)

Module App.
Import Py Http Ext.
Local Open Scope prog_scope.

(** [bool(s)] for a [str]. *)
Definition truthy_str (s : string) : bool :=
  match s with
  | "" => false
  | _ => true
  end.

(** [bool(x)] for an [x] that is a [str] or [None], as
    [os.environ.get(name)] returns. *)
Definition truthy_opt (x : option string) : bool :=
  match x with
  | Some s => truthy_str s
  | None => false
  end.

(** Which of the optional packages could be imported (lines 23-31); a
    package that could not is bound to [None]. *)
Record imports : Type := {
  boto3 : bool;
  stripe_pkg : bool
}.

(** The [stripe] module, with the one global of it that [create_app]
    sets. *)
Record stripe_module : Type := {
  api_key : option string
}.

(** The variables of [create_app] that its views close over. *)
Record app : Type := {
  s3_bucket : option string;
  notion_token : option string;
  notion_database_id : option string;
  aws_region : string;
  stripe_secret_key : option string;
  s3_client : option client;
  sns_client : option client;
  stripe : option stripe_module
}.

Definition boto3_client (name region : string) : client :=
  {| service := name; region_name := region |}.

(** Lines 36-58; [environ] is [os.environ]. *)
Definition create_app (pkgs : imports) (environ : list (string * string))
  : app :=
  let s3_bucket := dict_get "S3_BUCKET_NAME" environ in
  let notion_token := dict_get "NOTION_TOKEN" environ in
  let notion_database_id := dict_get "NOTION_DATABASE_ID" environ in
  let aws_region :=
    match dict_get "AWS_REGION" environ with
    | Some r => r
    | None => "us-east-1"
    end in
  let stripe_secret_key := dict_get "STRIPE_SECRET_KEY" environ in
  {| s3_bucket := s3_bucket;
     notion_token := notion_token;
     notion_database_id := notion_database_id;
     aws_region := aws_region;
     stripe_secret_key := stripe_secret_key;
     s3_client :=
       if boto3 pkgs && truthy_opt s3_bucket
       then Some (boto3_client "s3" aws_region)
       else None;
     sns_client :=
       if boto3 pkgs then Some (boto3_client "sns" aws_region) else None;
     stripe :=
       if stripe_pkg pkgs
       then Some {| api_key := if truthy_opt stripe_secret_key
                               then stripe_secret_key
                               else None |}
       else None |}.

(** [jsonify({"error": msg}), code]. *)
Definition error (msg : string) (code : Z) : response :=
  with_status (jsonify (JDict [("error", JStr msg)])) code.

(** Lines 61-64. *)
Definition health_check (a : app) : M response :=
  ret (jsonify (JDict [("status", JStr "ok")])).

(** Lines 67-103. *)
Definition gallery (a : app) (request : request) : M response :=
  match s3_client a, s3_bucket a with
  | Some s3, Some bucket =>
      if negb (truthy_str bucket) then
        ret (error "S3 is not configured" 500)
      else if is_GET (method request) then
        try_except
          (resp <- call (S3_list_objects_v2 s3 bucket) ;;
           contents <- lift (get resp "Contents" (JList [])) ;;
           objs <- lift (items contents) ;;
           objects <-
             for_each
               (fun obj =>
                  key <- lift (get obj "Key" JNull) ;;
                  url <- call (S3_generate_presigned_url
                                 s3 "get_object"
                                 (JDict [("Bucket", JStr bucket);
                                         ("Key", key)])
                                 3600) ;;
                  ret (JDict [("key", key); ("url", JStr url)]))
               objs ;;
           ret (jsonify (JList objects)))
          (fun exc => ret (error (str_exn exc) 500))
      else
        match dict_get "image" (files request) with
        | Some file =>
            if negb (file_truthy file) then
              ret (error "No file provided" 400)
            else
              try_except
                (_ <- call (S3_upload_fileobj s3 file bucket
                              (filename file)) ;;
                 ret (jsonify (JDict [("message", JStr "File uploaded");
                                      ("filename", JStr (filename file))])))
                (fun exc => ret (error (str_exn exc) 500))
        | None => ret (error "No file provided" 400)
        end
  | _, _ => ret (error "S3 is not configured" 500)
  end.

Section Payments.

Variable int_of_str : string -> py Z.

(** Lines 106-130. *)
Definition create_payment (a : app) (request : request) : M response :=
  match stripe a, stripe_secret_key a with
  | Some stripe, Some _ =>
      data <- lift (get_json request) ;;
      amount <- lift (get data "amount" JNull) ;;
      currency <- lift (get data "currency" (JStr "usd")) ;;
      if negb (truthy amount) then
        ret (error "Amount is required" 400)
      else
        try_except
          (n <- lift (int int_of_str amount) ;;
           metadata <- lift (get data "metadata" (JDict [])) ;;
           intent <- call (Stripe_PaymentIntent_create
                             (api_key stripe) n currency metadata) ;;
           ret (jsonify (JDict [("client_secret",
                                 JStr (client_secret intent))])))
          (fun exc => ret (error (str_exn exc) 500))
  | _, _ => ret (error "Payments are not configured" 500)
  end.

End Payments.

(** Lines 133-166. *)
Definition send_notification (a : app) (request : request) : M response :=
  match sns_client a with
  | None => ret (error "SNS is not configured" 500)
  | Some sns =>
      data <- lift (get_json request) ;;
      subject <- lift (get data "subject" (JStr "Notification")) ;;
      message <- lift (get data "message" JNull) ;;
      topic_arn <- lift (get data "topic_arn" JNull) ;;
      phone_number <- lift (get data "phone_number" JNull) ;;
      if negb (truthy message) then
        ret (error "Message is required" 400)
      else
        try_except
          (if truthy topic_arn then
             response <- call (SNS_publish sns [("TopicArn", topic_arn);
                                                ("Message", message);
                                                ("Subject", subject)]) ;;
             message_id <- lift (get response "MessageId" JNull) ;;
             ret (jsonify (JDict [("message_id", message_id)]))
           else if truthy phone_number then
             response <- call (SNS_publish sns
                                 [("PhoneNumber", phone_number);
                                  ("Message", message)]) ;;
             message_id <- lift (get response "MessageId" JNull) ;;
             ret (jsonify (JDict [("message_id", message_id)]))
           else
             ret (error "topic_arn or phone_number must be provided" 400))
          (fun exc => ret (error (str_exn exc) 500))
  end.

(** The body of the loop of [get_calendar_events], lines 191-199: one
    Notion page flattened to a [{title, start, end}] record. *)
Definition calendar_event (page : json) : py json :=
  (properties <- get page "properties" (JDict []) ;;
   title_props <- get properties "Name" (JDict []) ;;
   title_items <- get title_props "title" (JList []) ;;
   its <- items title_items ;;
   parts <- py_map (fun item => get item "plain_text" (JStr "")) its ;;
   title <- join parts ;;
   date <- get properties "Date" (JDict []) ;;
   date_props <- get date "date" (JDict []) ;;
   start <- get date_props "start" JNull ;;
   end_ <- get date_props "end" JNull ;;
   Return (JDict [("title", JStr title); ("start", start); ("end", end_)])
  )%py.

Definition notion_api_url (database_id : string) : string :=
  "https://api.notion.com/v1/databases/" ++ database_id ++ "/query".

Definition notion_headers (token : string) : list (string * string) :=
  [("Authorization", "Bearer " ++ token);
   ("Notion-Version", "2022-06-28");
   ("Content-Type", "application/json")].

(** Lines 169-202. *)
Definition get_calendar_events (a : app) : M response :=
  match notion_token a, notion_database_id a with
  | Some token, Some database_id =>
      if negb (truthy_str token) || negb (truthy_str database_id) then
        ret (error "Notion is not configured" 500)
      else
        try_except
          (resp <- call (Requests_post (notion_api_url database_id)
                           (notion_headers token) (JDict [])) ;;
           if negb (status_code resp =? 200)%Z then
             ret (with_status
                    (jsonify (JDict [("error",
                                      JStr "Notion API returned an error");
                                     ("details", JStr (text resp))]))
                    500)
           else
             data <- lift (json_ resp) ;;
             results <- lift (get data "results" (JList [])) ;;
             pages <- lift (items results) ;;
             events <- lift (py_map calendar_event pages) ;;
             ret (jsonify (JList events)))
          (fun exc => ret (error (str_exn exc) 500))
  | _, _ => ret (error "Notion is not configured" 500)
  end.

End App.

(* ================================================================= *)
(** ** The pages of a Notion database, as the calendar view expects them *)

Module Notion.
Import Py.

Definition is_str (v : json) : bool :=
  match v with
  | JStr _ => true
  | _ => false
  end.

(** A rich-text item: an object whose "plain_text", if any, is a string. *)
Definition rich_text_ok (item : json) : bool :=
  match item with
  | JDict i =>
      match dict_get "plain_text" i with
      | Some v => is_str v
      | None => true
      end
  | _ => false
  end.






End Notion.

(* ================================================================= *)
(** ** A world to try the views in *)

Module Demo.
Import Py Http Ext.

(** The state counts the calls made so far.  The bucket holds two
    objects, presigned links carry the count, uploads and publications go
    through, Stripe wants a key and a positive amount, Notion is down. *)
Definition answers : world nat :=
  fun c n =>
    (match c return py (answer c) with
     | S3_list_objects_v2 _ _ =>
         Return (JDict [("Name", JStr "gulin-gallery");
                        ("Contents",
                         JList [JDict [("Key", JStr "b.jpg");
                                       ("Size", JInt 2048)];
                                JDict [("Key", JStr "a.jpg");
                                       ("Size", JInt 1024)]])])
     | S3_generate_presigned_url _ _ params _ =>
         match get params "Key" JNull with
         | Return (JStr key) =>
             Return ("https://s3.example/" ++ key ++ "?n=" ++ decimal n)
         | _ => Raise (ServiceError "Parameter validation failed")
         end
     | S3_upload_fileobj _ _ _ _ => Return tt
     | Stripe_PaymentIntent_create key amount _ _ =>
         match key with
         | Some _ =>
             if (0 <? amount)%Z
             then Return {| client_secret := "pi_1_secret_2" |}
             else Raise (ServiceError "Invalid positive integer")
         | None => Raise (ServiceError "No API key provided")
         end
     | SNS_publish _ _ =>
         Return (JDict [("MessageId", JStr ("m-" ++ decimal n))])
     | Requests_post _ _ _ =>
         Return {| status_code := 503;
                   text := "Service Unavailable";
                   json_ := Raise (ValueError "Expecting value") |}
     end,
     S n).

End Demo.

(* ================================================================= *)
(** ** The client (mobile/main.py): what its screens make of the answers *)

Module Mobile.
Import Py.
Local Open Scope py_scope.

(** The widgets the screens add when an answer arrives, with the one
    argument that comes from the answer. *)
Inductive widget : Type :=
| AsyncImage (source : json)
| Label (text : string).

(** [clear_widgets()]. *)
Definition clear_widgets (children : list widget) : list widget := [].

(** [AsyncImage(source=url, ...)], line 103: [source] is a Kivy
    [StringProperty], which refuses a value that is not a [str]. *)
Definition async_image (url : json) : py widget :=
  match url with
  | JStr _ => Return (AsyncImage url)
  | _ => Raise (ValueError "AsyncImage.source accept only str")
  end.

(** The loop of [GalleryScreen.load_images.on_success], lines 100-104, on
    the children of the grid in the order they are added (the order in
    which a layout shows them).  An exception leaves the images added so
    far in place. *)
Fixpoint add_images (result : list json) (grid : list widget)
  : list widget * py unit :=
  match result with
  | [] => (grid, Return tt)
  | item :: rest =>
      match get item "url" JNull with
      | Return url =>
          if truthy url
          then match async_image url with
               | Return img => add_images rest (grid ++ [img])
               | Raise e => (grid, Raise e)
               end
          else add_images rest grid
      | Raise e => (grid, Raise e)
      end
  end.

(** An object whose "url" the loop can take: a string, or a value that is
    false for Python (also no "url" at all), which the loop skips. *)
Definition url_ok (item : list (string * json)) : bool :=
  match lookup item "url" JNull with
  | JStr _ => true
  | url => negb (truthy url)
  end.

(** [GalleryScreen.load_images.on_success], lines 97-104; [result] is the
    decoded body of the answer. *)
Definition gallery_on_success (result : json) (grid : list widget)
  : list widget * py unit :=
  match result with
  | JList items => add_images items grid
  | _ => (grid, Return tt)
  end.


Definition newline : string := String (ascii_of_nat 10) EmptyString.

(** [x or default]. *)
Definition or_ (x default : json) : json :=
  if truthy x then x else default.

Section Format.

(** [str(v)] for a float, a list or a dict (Python's [repr] of floats and
    of nested strings) stays a parameter. *)
Variable str_other : json -> string.

(** [str(v)], which an f-string applies to each value it inserts. *)
Definition str (v : json) : string :=
  match v with
  | JStr s => s
  | JNull => "None"
  | JBool true => "True"
  | JBool false => "False"
  | JInt z => NilZero.string_of_int (Z.to_int z)
  | _ => str_other v
  end.

(** Lines 144-147: the text of the label of one event. *)
Definition event_text (event : json) : py string :=
  title <- get event "title" (JStr "(Untitled)") ;;
  start <- get event "start" JNull ;;
  end_ <- get event "end" JNull ;;
  Return (str title ++ newline ++ "Start: " ++ str (or_ start (JStr "N/A"))
          ++ newline ++ "End: " ++ str (or_ end_ (JStr "N/A"))).

(** The loop of [CalendarScreen.load_events.on_success], lines 143-150. *)
Fixpoint add_labels (result : list json) (events_box : list widget)
  : list widget * py unit :=
  match result with
  | [] => (events_box, Return tt)
  | event :: rest =>
      match event_text event with
      | Return text => add_labels rest (events_box ++ [Label text])
      | Raise e => (events_box, Raise e)
      end
  end.

(** [CalendarScreen.load_events.on_success], lines 140-150. *)
Definition calendar_on_success (result : json) (events_box : list widget)
  : list widget * py unit :=
  match result with
  | JList events => add_labels events events_box
  | _ => (events_box, Return tt)
  end.

(** [CalendarScreen.load_events], lines 137-155, up to the arrival of a
    successful answer. *)
Definition load_events (result : json) (events_box : list widget)
  : list widget * py unit :=
  calendar_on_success result (clear_widgets events_box).

End Format.

(** Kivy's [ScreenManager], as far as navigation goes: the names of its
    screens, the name of the one shown, and the direction of its slide
    transition. *)
Record ScreenManager : Type := {
  screens : list string;
  current : option string;
  transition : string
}.

(** [ScreenManager()]: no screen yet; the default transition slides to
    the left. *)
Definition new_manager : ScreenManager :=
  {| screens := []; current := None; transition := "left" |}.

(** [sm.add_widget(Screen(name=name))]: the first screen added is shown. *)
Definition add_widget (sm : ScreenManager) (name : string) : ScreenManager :=
  {| screens := screens sm ++ [name];
     current := match current sm with
                | None => Some name
                | shown => shown
                end;
     transition := transition sm |}.

(** [RobertaApp.build], lines 232-240. *)
Definition build : ScreenManager :=
  fold_left add_widget
    ["home"; "gallery"; "calendar"; "payments"; "notifications"; "about"]
    new_manager.

(** [sm.transition = SlideTransition(direction=d)]. *)
Definition set_transition (sm : ScreenManager) (d : string) : ScreenManager :=
  {| screens := screens sm; current := current sm; transition := d |}.

(** [sm.current = name]; Kivy raises [ScreenManagerException] ([None]
    here) when it has no screen of that name. *)
Definition set_current (sm : ScreenManager) (name : string)
  : option ScreenManager :=
  if existsb (String.eqb name) (screens sm)
  then Some {| screens := screens sm; current := Some name;
               transition := transition sm |}
  else None.

(** [HomeScreen.go_to], lines 59-61. *)
Definition go_to (sm : ScreenManager) (screen_name : string)
  : option ScreenManager :=
  set_current (set_transition sm "left") screen_name.

(** [go_home] of the five other screens (lines 89-91, 133-135, 173-175,
    193-195, 224-226). *)
Definition go_home (sm : ScreenManager) : option ScreenManager :=
  set_current (set_transition sm "right") "home".

(** The buttons of [HomeScreen], lines 46-52: text and target. *)
Definition buttons : list (string * string) :=
  [("Gallery", "gallery"); ("Calendar", "calendar");
   ("Payments", "payments"); ("Notifications", "notifications");
   ("About", "about")].

(** What the user can release: a button of the home menu, by its text, or
    a "< Back" button. *)
Inductive tap : Type :=
| Menu (text : string)
| Back.

(** A release reaches a button only on the screen that is shown: the menu
    is on the home screen, a "< Back" button on each of the others. *)
Definition on_release (sm : ScreenManager) (t : tap) : option ScreenManager :=
  match t, current sm with
  | Menu text, Some "home" =>
      match dict_get text buttons with
      | Some screen_name => go_to sm screen_name
      | None => Some sm
      end
  | Back, Some "home" => Some sm
  | Back, Some _ => go_home sm
  | _, _ => Some sm
  end.

(** A session: releases one after the other, stopped by an exception. *)
Fixpoint session (sm : ScreenManager) (taps : list tap)
  : option ScreenManager :=
  match taps with
  | [] => Some sm
  | t :: rest =>
      match on_release sm t with
      | Some sm' => session sm' rest
      | None => None
      end
  end.

End Mobile.

(* ================================================================= *)
(** ** What a flattened page is expected to hold *)

Module Expected.
Import Py.

(** The text of a rich-text item: its "plain_text" when that is a string,
    nothing otherwise. *)
Definition plain_text_of (item : json) : string :=
  match item with
  | JDict i =>
      match dict_get "plain_text" i with
      | Some (JStr s) => s
      | _ => ""
      end
  | _ => ""
  end.

End Expected.

(* ================================================================= *)
(** ** Facts about programs and their runs *)

Import Py Http Ext App Notion.
Local Open Scope list_scope.

(** Every program runs to an end in every world. *)
Lemma exec_runs {W A} (h : world W) (p : prog A) (w : W) :
  runs p (snd (fst (exec h p w))) (fst (fst (exec h p w))).
Proof.
  revert w. induction p as [a | c k IH]; intro w; simpl.
  - split; reflexivity.
  - destruct (h c w) as [r w1].
    specialize (IH r w1).
    destruct (exec h (k r) w1) as [[a t] w2]. simpl in *.
    exists r, t. split; [reflexivity | exact IH].
Qed.

Lemma runs_seq {A B} (p : prog A) (f : A -> prog B) t1 t2 a b :
  runs p t1 a -> runs (f a) t2 b -> runs (seq p f) (t1 ++ t2) b.
Proof.
  revert t1. induction p as [a' | c k IH]; intros t1 Hp Hf; simpl in *.
  - destruct Hp as [-> ->]. exact Hf.
  - destruct Hp as (r & t' & -> & Hk).
    exists r, (t' ++ t2). split; [reflexivity | now apply IH].
Qed.

Lemma runs_seq_inv {A B} (p : prog A) (f : A -> prog B) t b :
  runs (seq p f) t b ->
  exists t1 t2 a, t = t1 ++ t2 /\ runs p t1 a /\ runs (f a) t2 b.
Proof.
  revert t. induction p as [a' | c k IH]; intros t H; simpl in *.
  - exists [], t, a'. repeat split; assumption.
  - destruct H as (r & t' & -> & Hk).
    destruct (IH r t' Hk) as (t1 & t2 & a & -> & Hp & Hf).
    exists (Event c r :: t1), t2, a. repeat split; try assumption.
    exists r, t1. split; [reflexivity | assumption].
Qed.

Lemma pack_inj (c : extcall) (x y : answer c) : pack c x = pack c y -> x = y.
Proof.
  destruct c; simpl in *; intro H;
    try (injection H; intros; assumption).
  destruct x, y. reflexivity.
Qed.

Lemma Event_inj (c : extcall) (r r' : py (answer c)) :
  Event c r = Event c r' -> r = r'.
Proof.
  intro H. apply (f_equal event_reply) in H.
  destruct r as [x | e], r' as [y | e']; simpl in H;
    try discriminate.
  - injection H as H. f_equal. now apply pack_inj.
  - injection H as H. now subst.
Qed.

(** The result of a run is determined by the answers it was given. *)
Lemma runs_deterministic {A} (p : prog A) t a a' :
  runs p t a -> runs p t a' -> a = a'.
Proof.
  revert t. induction p as [x | c k IH]; intros t H H'; simpl in *.
  - destruct H as [_ ->], H' as [_ ->]. reflexivity.
  - destruct H as (r & t1 & -> & H), H' as (r' & t2 & E & H').
    assert (Er : Event c r = Event c r') by congruence.
    assert (Et : t1 = t2) by congruence. subst t2.
    apply Event_inj in Er. subst r'.
    exact (IH r t1 H H').
Qed.

(* ================================================================= *)
(** ** The model at work *)

Example truthy_values :
  map truthy [JNull; JBool false; JInt 0; JFloat (S754_zero true); JStr "";
              JList []; JDict []; JInt 500; JStr "0"; JFloat S754_nan;
              JList [JNull]]
  = [false; false; false; false; false; false; false; true; true; true; true].
Proof. reflexivity. Qed.

Example get_of_None :
  get JNull "start" JNull
  = Raise (AttributeError "'NoneType' object has no attribute 'get'").
Proof. reflexivity. Qed.

Example join_of_a_number :
  join [JStr "Wed"; JStr "ding"] = Return "Wedding"%string
  /\ join [JStr "Wed"; JInt 4]
     = Raise (TypeError "sequence item 1: expected str instance, int found").
Proof. split; reflexivity. Qed.

Example int_truncates :
  int_of_float (S754_finite true 5 (-1)) = Return (-2)%Z
  /\ int_of_float (S754_finite false 3 2) = Return 12%Z.
Proof. split; reflexivity. Qed.

Example gallery_in_the_demo_world :
  let a := create_app {| boto3 := true; stripe_pkg := true |}
             [("S3_BUCKET_NAME", "gulin-gallery")] in
  fst (fst (exec Demo.answers
              (gallery a {| method := GET; data := None; files := [] |}) 0%nat))
  = Return
      {| body :=
           JList [JDict [("key", JStr "b.jpg");
                         ("url", JStr "https://s3.example/b.jpg?n=1")];
                  JDict [("key", JStr "a.jpg");
                         ("url", JStr "https://s3.example/a.jpg?n=2")]];
         status := 200 |}.
Proof. reflexivity. Qed.

Example payment_in_the_demo_world :
  let int_of_str := fun _ : string => Raise (ValueError "invalid literal") in
  let a := create_app {| boto3 := false; stripe_pkg := true |}
             [("STRIPE_SECRET_KEY", "sk_test_1")] in
  let post d := {| method := POST; data := Some (JDict d); files := [] |} in
  fst (fst (exec Demo.answers
              (create_payment int_of_str a
                 (post [("amount", JInt 500); ("currency", JStr "usd")]))
              0%nat))
  = Return (jsonify (JDict [("client_secret", JStr "pi_1_secret_2")]))
  /\ fst (fst (exec Demo.answers
                 (create_payment int_of_str a (post [("amount", JStr "abc")]))
                 0%nat))
     = Return (error "invalid literal" 500)
  /\ fst (fst (exec Demo.answers
                 (create_payment int_of_str a
                    (post [("amount", JList [JInt 5])]))
                 0%nat))
     = Return (error ("int() argument must be a string, a bytes-like object "
                      ++ "or a real number, not 'list'") 500)
  /\ fst (fst (exec Demo.answers (create_payment int_of_str a
                                    {| method := POST; data := Some (JList []);
                                       files := [] |}) 0%nat))
     = Raise (AttributeError "'list' object has no attribute 'get'").
Proof. repeat split; reflexivity. Qed.

(* ================================================================= *)
(** ** The health view *)

(** C8 -- GET /api/health: for every state of the application (whatever
    was or was not configured when it was created), the view is the
    program that returns at once, without a call and without raising, the
    response 200 with body {"status": "ok"}; run in any world, it leaves
    the world as it was. *)
Theorem health_check_ok (a : app) :
  health_check a
  = Ret (Return {| body := JDict [("status", JStr "ok")]; status := 200 |})
  /\ forall (W : Type) (h : world W) (w : W),
       exec h (health_check a) w
       = (Return {| body := JDict [("status", JStr "ok")]; status := 200 |},
          [], w).
Proof.
  split; [reflexivity | intros W h w; reflexivity].
Qed.

(* ================================================================= *)
(** ** Configuration checks *)

(** C4 -- /api/gallery with no bucket configured ([S3_BUCKET_NAME] unset
    or empty): whatever the method and the rest of the request, the view
    answers 500 with the error "S3 is not configured", making no call. *)
Theorem gallery_unconfigured_500 (a : app) (request : request) :
  truthy_opt (s3_bucket a) = false ->
  gallery a request
  = Ret (Return {| body := JDict [("error", JStr "S3 is not configured")];
                   status := 500 |}).
Proof.
  intro Hb. unfold gallery.
  destruct (s3_client a) as [s3 | ]; [ | reflexivity].
  destruct (s3_bucket a) as [bucket | ]; [ | reflexivity].
  simpl in Hb. rewrite Hb. reflexivity.
Qed.

Lemma gallery_unconfigured_500_witness :
  let a := create_app {| boto3 := true; stripe_pkg := true |}
             [("AWS_REGION", "ap-southeast-2")] in
  let request := {| method := POST; data := None; files := [] |} in
  truthy_opt (s3_bucket a) = false
  /\ gallery a request
     = Ret (Return {| body := JDict [("error", JStr "S3 is not configured")];
                      status := 500 |}).
Proof.
  split; [reflexivity | apply gallery_unconfigured_500; reflexivity].
Defined.



(* ================================================================= *)
(** ** Input validation *)

(** C5 (as the code has it) -- POST /api/notifications with SNS
    configured and a JSON object as body: when the object has no "message"
    member, the view answers 400 with the error "Message is required",
    making no call. *)
Theorem notification_missing_message_400
  (a : app) (sns : client) (request : request) (d : list (string * json)) :
  sns_client a = Some sns ->
  data request = Some (JDict d) ->
  dict_get "message" d = None ->
  send_notification a request
  = Ret (Return {| body := JDict [("error", JStr "Message is required")];
                   status := 400 |}).
Proof.
  intros Hsns Hdata Hmsg.
  unfold send_notification, get_json. rewrite Hsns, Hdata.
  cbn. assert (Hm : lookup d "message" JNull = JNull)
    by (unfold lookup; rewrite Hmsg; reflexivity).
  rewrite Hm. reflexivity.
Qed.

Lemma notification_missing_message_400_witness :
  let a := create_app {| boto3 := true; stripe_pkg := false |} [] in
  let d := [("subject", JStr "Session"); ("phone_number", JStr "+61400000000")] in
  let request := {| method := POST; data := Some (JDict d); files := [] |} in
  dict_get "message" d = None
  /\ send_notification a request
     = Ret (Return {| body := JDict [("error", JStr "Message is required")];
                      status := 400 |}).
Proof.
  split; [reflexivity | ].
  eapply notification_missing_message_400; reflexivity.
Defined.

(** C5, as stated, fails: SNS is configured and the body, the JSON list
    [[]], holds no "message", yet the view does not answer 400.  It reads
    [data.get("subject", ...)] outside its [try] (line 143), a list has no
    [get], and the [AttributeError] leaves the view; Flask answers an
    exception that leaves a view with its own 500. *)
Lemma notification_list_body_is_not_answered_400 :
  let a := create_app {| boto3 := true; stripe_pkg := false |} [] in
  let request := {| method := POST; data := Some (JList []); files := [] |} in
  sns_client a = Some {| service := "sns"; region_name := "us-east-1" |}
  /\ get_json request = Return (JList [])
  /\ send_notification a request
     = Ret (Raise (AttributeError "'list' object has no attribute 'get'"))
  /\ forall t r,
       runs (send_notification a request) t r ->
       t = []
       /\ r <> Return {| body := JDict [("error",
                                         JStr "Message is required")];
                         status := 400 |}.
Proof.
  repeat split; try reflexivity.
  - destruct H as [Ht _]. exact Ht.
  - destruct H as [_ Hr]. rewrite Hr. discriminate.
Qed.

(** The value [data.get("amount")] of a payment request. *)
Lemma create_payment_validation_steps
  (int_of_str : string -> py Z) (a : app) (stripe0 : stripe_module)
  (key : string) (request : request) (d : list (string * json)) :
  stripe a = Some stripe0 ->
  stripe_secret_key a = Some key ->
  data request = Some (JDict d) ->
  create_payment int_of_str a request
  = let amount := lookup d "amount" JNull in
    let currency := lookup d "currency" (JStr "usd") in
    if negb (truthy amount) then Ret (Return (error "Amount is required" 400))
    else
      try_except
        (n <- lift (int int_of_str amount) ;;
         metadata <- lift (get (JDict d) "metadata" (JDict [])) ;;
         intent <- call (Stripe_PaymentIntent_create
                           (api_key stripe0) n currency metadata) ;;
         ret (jsonify (JDict [("client_secret",
                               JStr (client_secret intent))])))%prog
        (fun exc => ret (error (str_exn exc) 500)).
Proof.
  intros Hs Hk Hd. unfold create_payment, get_json. rewrite Hs, Hk, Hd.
  reflexivity.
Qed.

(** Past the validation, a payment request ends in 200 or 500. *)
Lemma create_payment_charge_status
  (int_of_str : string -> py Z) (api : option string)
  (amount currency : json) (d : list (string * json)) t r :
  runs (try_except
          (n <- lift (int int_of_str amount) ;;
           metadata <- lift (get (JDict d) "metadata" (JDict [])) ;;
           intent <- call (Stripe_PaymentIntent_create
                             api n currency metadata) ;;
           ret (jsonify (JDict [("client_secret",
                                 JStr (client_secret intent))])))%prog
          (fun exc => ret (error (str_exn exc) 500))) t r ->
  exists resp, r = Return resp /\ (status resp = 200 \/ status resp = 500).
Proof.
  destruct (int int_of_str amount) as [n | e]; cbn.
  - intros (ans & t' & -> & Hk). destruct ans as [intent | e]; cbn in Hk;
      destruct Hk as [_ ->]; eexists; split; try reflexivity; auto.
  - intros [_ ->]. eexists; split; [reflexivity | right; reflexivity].
Qed.

(** C1 (as the code has it) -- POST /api/payments with the processor
    configured and a JSON object as body: the request is answered 400
    exactly when [data.get("amount")] is false for Python, that is when
    "amount" is missing or is null, 0, 0.0, false, an empty string, list
    or object; it is then answered "Amount is required" without a call.
    Every other amount passes the validation: the answer is a 200 or a
    500. *)
Theorem create_payment_400_iff_amount_falsy
  (int_of_str : string -> py Z) (a : app) (stripe0 : stripe_module)
  (key : string) (request : request) (d : list (string * json))
  (t : list event) (r : py response) :
  stripe a = Some stripe0 ->
  stripe_secret_key a = Some key ->
  data request = Some (JDict d) ->
  runs (create_payment int_of_str a request) t r ->
  let amount := lookup d "amount" JNull in
  ((exists resp, r = Return resp /\ status resp = 400)
   <-> truthy amount = false)
  /\ (truthy amount = false ->
      t = [] /\ r = Return (error "Amount is required" 400))
  /\ (dict_get "amount" d = None -> truthy amount = false).
Proof.
  intros Hs Hk Hd Hrun amount.
  rewrite (create_payment_validation_steps _ _ _ _ _ _ Hs Hk Hd) in Hrun.
  cbv zeta in Hrun. fold amount in Hrun.
  destruct (truthy amount) eqn:Ht; cbn [negb] in Hrun.
  - apply create_payment_charge_status in Hrun.
    destruct Hrun as (resp & -> & Hst).
    repeat split; try discriminate.
    + intros (resp' & E & H400). injection E as <-.
      destruct Hst as [Hst | Hst]; rewrite Hst in H400; discriminate.
    + intro Hnone. subst amount. unfold lookup in Ht.
      rewrite Hnone in Ht. discriminate.
  - destruct Hrun as [-> ->].
    repeat split; try reflexivity.
    exists (error "Amount is required" 400). split; reflexivity.
Qed.

Lemma create_payment_400_iff_amount_falsy_witness :
  let int_of_str := fun _ : string => Raise (ValueError "invalid literal") in
  let a := create_app {| boto3 := false; stripe_pkg := true |}
             [("STRIPE_SECRET_KEY", "sk_test_1")] in
  let d := [("amount", JInt 500); ("currency", JStr "usd")] in
  let request := {| method := POST; data := Some (JDict d); files := [] |} in
  let t := [Event (Stripe_PaymentIntent_create
                     (Some "sk_test_1") 500 (JStr "usd") (JDict []))
                  (Return {| client_secret := "pi_1_secret_2" |})] in
  let r := Return (jsonify (JDict [("client_secret",
                                    JStr "pi_1_secret_2")])) in
  runs (create_payment int_of_str a request) t r
  /\ ((exists resp, r = Return resp /\ status resp = 400)
      <-> truthy (JInt 500) = false)
  /\ (truthy (JInt 500) = false ->
      t = [] /\ r = Return (error "Amount is required" 400))
  /\ (dict_get "amount" d = None -> truthy (JInt 500) = false).
Proof.
  intros int_of_str a d request t r.
  assert (Hrun : runs (create_payment int_of_str a request) t r).
  { cbn. eexists _, _. split; [reflexivity | split; reflexivity]. }
  split; [exact Hrun | ].
  exact (create_payment_400_iff_amount_falsy
           int_of_str a {| api_key := Some "sk_test_1" |} "sk_test_1"
           request d t r eq_refl eq_refl eq_refl Hrun).
Defined.

(** C1, as stated, fails: an amount of 0 is present in the request and
    the request is still answered 400 "Amount is required". *)
Lemma create_payment_rejects_present_zero_amount :
  let int_of_str := fun _ : string => Raise (ValueError "invalid literal") in
  let a := create_app {| boto3 := false; stripe_pkg := true |}
             [("STRIPE_SECRET_KEY", "sk_test_1")] in
  let d := [("amount", JInt 0); ("currency", JStr "usd")] in
  let request := {| method := POST; data := Some (JDict d); files := [] |} in
  dict_get "amount" d = Some (JInt 0)
  /\ create_payment int_of_str a request
     = Ret (Return {| body := JDict [("error", JStr "Amount is required")];
                      status := 400 |}).
Proof.
  split; reflexivity.
Qed.

(* ================================================================= *)
(** ** Notifications: which target is used *)

(** C3 (as the code has it) -- POST /api/notifications with SNS
    configured and a JSON object as body whose "message" and "topic_arn"
    are true for Python (not null, not empty): whatever "phone_number" is,
    supplied or not, every run of the view makes exactly one call, the
    [publish] to the topic with [TopicArn], [Message] and [Subject], and
    none with [PhoneNumber]; the response is the message id of that call,
    or a 500 when it raises. *)
Theorem notification_topic_precedence
  (a : app) (sns : client) (request : request) (d : list (string * json))
  (t : list event) (r : py response) :
  sns_client a = Some sns ->
  data request = Some (JDict d) ->
  truthy (lookup d "message" JNull) = true ->
  truthy (lookup d "topic_arn" JNull) = true ->
  runs (send_notification a request) t r ->
  (exists ans : py json,
     t = [Event (SNS_publish sns
                   [("TopicArn", lookup d "topic_arn" JNull);
                    ("Message", lookup d "message" JNull);
                    ("Subject", lookup d "subject" (JStr "Notification"))])
                ans]
     /\ r = Return
              match ans with
              | Return response =>
                  match get response "MessageId" JNull with
                  | Return message_id =>
                      jsonify (JDict [("message_id", message_id)])
                  | Raise exc => error (str_exn exc) 500
                  end
              | Raise exc => error (str_exn exc) 500
              end)
  /\ (forall self kwargs ans,
        In (Event (SNS_publish self kwargs) ans) t ->
        dict_get "PhoneNumber" kwargs = None).
Proof.
  intros Hsns Hdata Hm Ht Hrun.
  unfold send_notification, get_json in Hrun.
  rewrite Hsns, Hdata in Hrun. cbn in Hrun. rewrite Hm, Ht in Hrun.
  cbn in Hrun. destruct Hrun as (ans & t' & -> & Hk).
  assert (Hend : t' = []
                 /\ r = Return
                          match ans with
                          | Return response =>
                              match get response "MessageId" JNull with
                              | Return message_id =>
                                  jsonify (JDict [("message_id", message_id)])
                              | Raise exc => error (str_exn exc) 500
                              end
                          | Raise exc => error (str_exn exc) 500
                          end).
  { destruct ans as [response | exc]; cbn in Hk.
    - destruct (get response "MessageId" JNull) as [mid | exc];
        cbn in Hk; destruct Hk as [-> ->]; split; reflexivity.
    - destruct Hk as [-> ->]; split; reflexivity. }
  destruct Hend as [-> ->]. split.
  - exists ans. split; reflexivity.
  - intros self kwargs ans' [Hin | []].
    assert (Hc : SNS_publish sns
                   [("TopicArn", lookup d "topic_arn" JNull);
                    ("Message", lookup d "message" JNull);
                    ("Subject", lookup d "subject" (JStr "Notification"))]
                 = SNS_publish self kwargs) by congruence.
    injection Hc as _ <-. reflexivity.
Qed.

Lemma notification_topic_precedence_witness :
  let a := create_app {| boto3 := true; stripe_pkg := false |} [] in
  let sns := {| service := "sns"; region_name := "us-east-1" |} in
  let d := [("message", JStr "Your gallery is ready");
            ("topic_arn", JStr "arn:aws:sns:us-east-1:1:clients");
            ("phone_number", JStr "+61400000000")] in
  let request := {| method := POST; data := Some (JDict d); files := [] |} in
  let t := [Event (SNS_publish sns
                     [("TopicArn", JStr "arn:aws:sns:us-east-1:1:clients");
                      ("Message", JStr "Your gallery is ready");
                      ("Subject", JStr "Notification")])
                  (Return (JDict [("MessageId", JStr "m-1")]))] in
  let r := Return (jsonify (JDict [("message_id", JStr "m-1")])) in
  runs (send_notification a request) t r
  /\ (forall self kwargs ans,
        In (Event (SNS_publish self kwargs) ans) t ->
        dict_get "PhoneNumber" kwargs = None).
Proof.
  intros a sns d request t r.
  assert (Hrun : runs (send_notification a request) t r).
  { cbn. eexists _, _. split; [reflexivity | split; reflexivity]. }
  split; [exact Hrun | ].
  exact (proj2 (notification_topic_precedence a sns request d t r
                  eq_refl eq_refl eq_refl eq_refl Hrun)).
Defined.

(** C3, as stated, fails: with an empty "topic_arn" supplied next to a
    "phone_number", the notification goes out by SMS. *)
Lemma notification_empty_topic_goes_to_phone :
  let a := create_app {| boto3 := true; stripe_pkg := false |} [] in
  let sns := {| service := "sns"; region_name := "us-east-1" |} in
  let d := [("message", JStr "Your gallery is ready");
            ("topic_arn", JStr "");
            ("phone_number", JStr "+61400000000")] in
  let request := {| method := POST; data := Some (JDict d); files := [] |} in
  dict_get "message" d = Some (JStr "Your gallery is ready")
  /\ dict_get "topic_arn" d = Some (JStr "")
  /\ dict_get "phone_number" d = Some (JStr "+61400000000")
  /\ runs (send_notification a request)
       [Event (SNS_publish sns
                 [("PhoneNumber", JStr "+61400000000");
                  ("Message", JStr "Your gallery is ready")])
              (Return (JDict [("MessageId", JStr "m-2")]))]
       (Return (jsonify (JDict [("message_id", JStr "m-2")]))).
Proof.
  repeat split; try reflexivity.
  cbn. eexists _, _. split; [reflexivity | split; reflexivity].
Qed.

(* ================================================================= *)
(** ** Gallery upload *)

(** C7 (as the code has it) -- POST /api/gallery with storage configured.
    When [request.files] has no part named "image", or that part has an
    empty file name, the view answers 400 "No file provided" without a
    call.  Otherwise every run makes exactly one call,
    [upload_fileobj(file, bucket, file.filename)]: the file goes to the
    bucket under its original file name; when the call returns, the
    response is the 200 whose "filename" is that file name, and when it
    raises, a 500 with the exception's text. *)
Theorem gallery_post_upload
  (a : app) (s3 : client) (bucket : string) (request : request) :
  s3_client a = Some s3 ->
  s3_bucket a = Some bucket ->
  truthy_str bucket = true ->
  method request = POST ->
  (match dict_get "image" (files request) with
   | None => True
   | Some file => filename file = ""%string
   end ->
   gallery a request = Ret (Return (error "No file provided" 400)))
  /\ (forall file t r,
        dict_get "image" (files request) = Some file ->
        filename file <> ""%string ->
        runs (gallery a request) t r ->
        exists ans : py unit,
          t = [Event (S3_upload_fileobj s3 file bucket (filename file)) ans]
          /\ r = Return
                   match ans with
                   | Return _ =>
                       {| body := JDict [("message", JStr "File uploaded");
                                         ("filename",
                                          JStr (filename file))];
                          status := 200 |}
                   | Raise exc => error (str_exn exc) 500
                   end).
Proof.
  intros Hc Hb Hbt Hm.
  unfold gallery. rewrite Hc, Hb, Hbt, Hm. cbn [negb is_GET].
  split.
  - destruct (dict_get "image" (files request)) as [file | ];
      [ | reflexivity].
    intro Hname. unfold file_truthy. rewrite Hname. reflexivity.
  - intros file t r Hfile Hname Hrun. rewrite Hfile in Hrun.
    assert (Htruthy : file_truthy file = true).
    { unfold file_truthy. destruct (filename file); [contradiction | easy]. }
    rewrite Htruthy in Hrun. cbn in Hrun.
    destruct Hrun as (ans & t' & -> & Hk). exists ans.
    destruct ans as [[] | exc]; cbn in Hk; destruct Hk as [-> ->];
      split; reflexivity.
Qed.

Lemma gallery_post_upload_witness :
  let a := create_app {| boto3 := true; stripe_pkg := false |}
             [("S3_BUCKET_NAME", "gulin-gallery")] in
  let s3 := {| service := "s3"; region_name := "us-east-1" |} in
  let file := {| filename := "wedding-01.jpg"; stream := [Byte.x89; Byte.x50] |} in
  let request := {| method := POST; data := None;
                    files := [("image", file)] |} in
  let t := [Event (S3_upload_fileobj s3 file "gulin-gallery" "wedding-01.jpg")
                  (Return tt)] in
  let r := Return {| body := JDict [("message", JStr "File uploaded");
                                    ("filename", JStr "wedding-01.jpg")];
                     status := 200 |} in
  runs (gallery a request) t r
  /\ exists ans : py unit,
       t = [Event (S3_upload_fileobj s3 file "gulin-gallery"
                     (filename file)) ans]
       /\ r = Return
                match ans with
                | Return _ =>
                    {| body := JDict [("message", JStr "File uploaded");
                                      ("filename", JStr (filename file))];
                       status := 200 |}
                | Raise exc => error (str_exn exc) 500
                end.
Proof.
  intros a s3 file request t r.
  assert (Hrun : runs (gallery a request) t r).
  { cbn. eexists _, _. split; [reflexivity | split; reflexivity]. }
  split; [exact Hrun | ].
  refine (proj2 (gallery_post_upload a s3 "gulin-gallery" request
                   eq_refl eq_refl eq_refl eq_refl)
            file t r eq_refl _ Hrun).
  discriminate.
Defined.

(** C7, as stated, fails: a part named "image" is present, with content,
    but its file name is empty; the view answers 400 and stores nothing. *)
Lemma gallery_post_unnamed_file_rejected :
  let a := create_app {| boto3 := true; stripe_pkg := false |}
             [("S3_BUCKET_NAME", "gulin-gallery")] in
  let file := {| filename := ""; stream := [Byte.x89; Byte.x50] |} in
  let request := {| method := POST; data := None;
                    files := [("image", file)] |} in
  dict_get "image" (files request) = Some file
  /\ gallery a request
     = Ret (Return {| body := JDict [("error", JStr "No file provided")];
                      status := 400 |}).
Proof.
  split; reflexivity.
Qed.

(* ================================================================= *)
(** ** Calendar: entries the parser cannot flatten *)

Lemma py_map_raises {A B} (f : A -> py B) (pre post : list A) (x : A) e :
  f x = Raise e -> exists e', py_map f (pre ++ x :: post) = Raise e'.
Proof.
  intro Hx. induction pre as [ | y pre IH]; simpl.
  - rewrite Hx. exists e. reflexivity.
  - destruct (f y) as [b | e0]; simpl.
    + destruct IH as [e' ->]. exists e'. reflexivity.
    + exists e0. reflexivity.
Qed.

(** A page whose "Date" property holds ["date": null] cannot be
    flattened: [date_props] is [None], and [None.get] raises (unless an
    earlier step of the same page raised already). *)
Lemma calendar_event_null_date (p props dt : list (string * json)) :
  dict_get "properties" p = Some (JDict props) ->
  dict_get "Date" props = Some (JDict dt) ->
  dict_get "date" dt = Some JNull ->
  exists e, calendar_event (JDict p) = Raise e.
Proof.
  intros Hp Hd Hn.
  assert (Ep : lookup p "properties" (JDict []) = JDict props)
    by (unfold lookup; rewrite Hp; reflexivity).
  assert (Ed : lookup props "Date" (JDict []) = JDict dt)
    by (unfold lookup; rewrite Hd; reflexivity).
  assert (En : lookup dt "date" (JDict []) = JNull)
    by (unfold lookup; rewrite Hn; reflexivity).
  unfold calendar_event. cbn [get py_bind]. rewrite Ep. cbn [get py_bind].
  destruct (get (lookup props "Name" (JDict [])) "title" (JList []))
    as [title_items | e]; cbn [py_bind]; [ | eexists; reflexivity].
  destruct (items title_items) as [its | e]; cbn [py_bind];
    [ | eexists; reflexivity].
  destruct (py_map (fun item => get item "plain_text" (JStr "")) its)
    as [parts | e]; cbn [py_bind]; [ | eexists; reflexivity].
  destruct (join parts) as [title | e]; cbn [py_bind];
    [ | eexists; reflexivity].
  rewrite Ed. cbn [get py_bind]. rewrite En. cbn.
  eexists; reflexivity.
Qed.

(** One such entry anywhere in the results turns the whole answer into a
    500, whatever the other entries are. *)
Lemma calendar_null_date_always_500
  (a : app) (token database_id : string) (resp : http_response)
  (body0 : list (string * json)) (pre post : list json)
  (p props dt : list (string * json)) :
  notion_token a = Some token -> truthy_str token = true ->
  notion_database_id a = Some database_id ->
  truthy_str database_id = true ->
  status_code resp = 200 ->
  json_ resp = Return (JDict body0) ->
  dict_get "results" body0 = Some (JList (pre ++ JDict p :: post)) ->
  dict_get "properties" p = Some (JDict props) ->
  dict_get "Date" props = Some (JDict dt) ->
  dict_get "date" dt = Some JNull ->
  exists msg,
    runs (get_calendar_events a)
      [Event (Requests_post (notion_api_url database_id)
                (notion_headers token) (JDict []))
             (Return resp)]
      (Return (error msg 500)).
Proof.
  intros Ht Htt Hd Hdt Hs Hj Hr Hp HD Hn.
  destruct (calendar_event_null_date p props dt Hp HD Hn) as [e He].
  destruct (py_map_raises calendar_event pre post (JDict p) e He)
    as [e' He'].
  exists (str_exn e').
  unfold get_calendar_events. rewrite Ht, Hd, Htt, Hdt. cbn.
  eexists _, _. split; [reflexivity | ].
  cbn. rewrite Hs, Hj. cbn. unfold lookup. rewrite Hr. cbn.
  rewrite He'. cbn. split; reflexivity.
Qed.

(** C9 -- there is a GET /api/calendar request whose upstream answer is a
    200 and in which one entry has its "Date" property present with a
    null "date": the first entry of the answer is complete, the second is
    that one, and the view answers 500 with the text of the
    [AttributeError] instead of a list in which that entry has null start
    and end. *)
Theorem calendar_null_date_fails_request :
  exists (a : app) (resp : http_response) (good bad : json)
         (token database_id : string),
    notion_token a = Some token
    /\ notion_database_id a = Some database_id
    /\ status_code resp = 200
    /\ json_ resp = Return (JDict [("results", JList [good; bad])])
    /\ calendar_event good
       = Return (JDict [("title", JStr "Wedding"%string);
                        ("start", JStr "2024-05-01"%string);
                        ("end", JNull)])
    /\ bad = JDict [("properties",
                     JDict [("Name",
                             JDict [("title",
                                     JList [JDict [("plain_text",
                                                    JStr "Portraits")]])]);
                            ("Date", JDict [("date", JNull)])])]
    /\ runs (get_calendar_events a)
         [Event (Requests_post (notion_api_url database_id)
                   (notion_headers token) (JDict []))
                (Return resp)]
         (Return
            {| body := JDict [("error",
                               JStr "'NoneType' object has no attribute 'get'")];
               status := 500 |}).
Proof.
  exists (create_app {| boto3 := false; stripe_pkg := false |}
            [("NOTION_TOKEN", "secret_1"); ("NOTION_DATABASE_ID", "db-1")]).
  eexists {| status_code := 200; text := "{...}";
             json_ := Return (JDict [("results", JList [_; _])]) |}.
  exists (JDict [("properties",
                  JDict [("Name",
                          JDict [("title",
                                  JList [JDict [("plain_text",
                                                 JStr "Wedding")]])]);
                         ("Date",
                          JDict [("date",
                                  JDict [("start", JStr "2024-05-01");
                                         ("end", JNull)])])])]).
  eexists. exists "secret_1"%string, "db-1"%string.
  repeat split; try reflexivity.
  cbn. eexists _, _. split; [reflexivity | split; reflexivity].
Qed.

(* ================================================================= *)
(** ** Gallery listing *)

Lemma runs_bind {A B} (m : M A) (f : A -> M B) t1 t2 x b :
  runs m t1 (Return x) -> runs (f x) t2 b -> runs (bind m f) (t1 ++ t2) b.
Proof.
  intros Hm Hf. unfold bind. eapply runs_seq; [exact Hm | exact Hf].
Qed.

Lemma runs_bind_inv {A B} (m : M A) (f : A -> M B) t b :
  runs (bind m f) t b ->
  exists t1 res,
    runs m t1 res
    /\ match res with
       | Return x => exists t2, t = t1 ++ t2 /\ runs (f x) t2 b
       | Raise e => t = t1 /\ b = Raise e
       end.
Proof.
  unfold bind. intro H.
  apply runs_seq_inv in H as (t1 & t2 & res & -> & Hm & Hf).
  exists t1, res. split; [exact Hm | ].
  destruct res as [x | e].
  - exists t2. split; [reflexivity | exact Hf].
  - simpl in Hf. destruct Hf as [-> ->]. rewrite app_nil_r.
    split; reflexivity.
Qed.

Lemma runs_try_except_inv {A} (m : M A) (h : exn -> M A) t b :
  runs (try_except m h) t b ->
  exists t1 res,
    runs m t1 res
    /\ match res with
       | Return x => t = t1 /\ b = Return x
       | Raise e => exists t2, t = t1 ++ t2 /\ runs (h e) t2 b
       end.
Proof.
  unfold try_except. intro H.
  apply runs_seq_inv in H as (t1 & t2 & res & -> & Hm & Hf).
  exists t1, res. split; [exact Hm | ].
  destruct res as [x | e].
  - simpl in Hf. destruct Hf as [-> ->]. rewrite app_nil_r.
    split; reflexivity.
  - exists t2. split; [reflexivity | exact Hf].
Qed.

Lemma runs_try_except_Return {A} (m : M A) (h : exn -> M A) t x :
  runs m t (Return x) -> runs (try_except m h) t (Return x).
Proof.
  intro Hm. unfold try_except. rewrite <- (app_nil_r t).
  eapply runs_seq; [exact Hm | ]. simpl. split; reflexivity.
Qed.

Section Listing.

Variables (s3 : client) (bucket : string).

(** The body of the loop of lines 82-90. *)
Let sign (obj : json) : M json :=
  (key <- lift (get obj "Key" JNull) ;;
   url <- call (S3_generate_presigned_url
                  s3 "get_object"
                  (JDict [("Bucket", JStr bucket); ("Key", key)])
                  3600) ;;
   ret (JDict [("key", key); ("url", JStr url)]))%prog.

Let signed (ou : list (string * json) * string) : event :=
  Event (S3_generate_presigned_url
           s3 "get_object"
           (JDict [("Bucket", JStr bucket);
                   ("Key", lookup (fst ou) "Key" JNull)])
           3600)
        (Return (snd ou)).

Let item (ou : list (string * json) * string) : json :=
  JDict [("key", lookup (fst ou) "Key" JNull); ("url", JStr (snd ou))].

Lemma sign_loop_runs (objs : list (list (string * json))) :
  forall urls : list string,
    length urls = length objs ->
    runs (for_each sign (map JDict objs))
      (map signed (combine objs urls))
      (Return (map item (combine objs urls))).
Proof.
  induction objs as [ | o objs IH]; intros urls Hlen.
  - simpl. split; reflexivity.
  - destruct urls as [ | u urls]; [discriminate | ].
    injection Hlen as Hlen. specialize (IH urls Hlen).
    change (map JDict (o :: objs)) with (JDict o :: map JDict objs).
    change (combine (o :: objs) (u :: urls))
      with ((o, u) :: combine objs urls).
    change (map signed ((o, u) :: combine objs urls))
      with ([signed (o, u)] ++ map signed (combine objs urls)).
    cbn [for_each].
    eapply runs_bind with (x := item (o, u)).
    + cbn. eexists _, _. split; [reflexivity | split; reflexivity].
    + rewrite <- (app_nil_r (map signed (combine objs urls))).
      eapply runs_bind; [exact IH | ]. simpl. split; reflexivity.
Qed.

Lemma sign_loop_inv (objs : list (list (string * json))) :
  forall t res,
    runs (for_each sign (map JDict objs)) t res ->
    Forall answered t ->
    exists urls : list string,
      length urls = length objs
      /\ t = map signed (combine objs urls)
      /\ res = Return (map item (combine objs urls)).
Proof.
  induction objs as [ | o objs IH]; intros t res Hrun Hok.
  - simpl in Hrun. destruct Hrun as [-> ->]. exists []. repeat split.
  - change (map JDict (o :: objs)) with (JDict o :: map JDict objs) in Hrun.
    cbn [for_each] in Hrun.
    apply runs_bind_inv in Hrun as (t1 & res1 & Hsign & Hrest).
    cbn in Hsign. destruct Hsign as (ans & t0 & -> & Hk).
    destruct ans as [url | exc]; cbn in Hk; destruct Hk as [-> ->].
    + destruct Hrest as (t2 & -> & Hrest).
      apply runs_bind_inv in Hrest as (t3 & res3 & Hloop & Hend).
      assert (Hok3 : Forall answered t3).
      { simpl in Hok. inversion Hok as [ | ? ? _ Hok2]; subst.
        destruct res3 as [bs | e].
        - destruct Hend as (t4 & -> & _).
          apply Forall_app in Hok2. tauto.
        - destruct Hend as [-> _]. exact Hok2. }
      destruct (IH t3 res3 Hloop Hok3) as (urls & Hlen & -> & ->).
      destruct Hend as (t4 & -> & Hret). simpl in Hret.
      destruct Hret as [-> ->].
      exists (url :: urls). simpl. rewrite app_nil_r, Hlen.
      repeat split.
    + destruct Hrest as [-> _]. inversion Hok as [ | ? ? Hbad _]; subst.
      destruct Hbad.
Qed.

End Listing.

(** C6 -- GET /api/gallery with storage configured, when
    [list_objects_v2] returns a listing whose "Contents" (if any) is a list
    of objects and no call raises: after the listing the view makes one
    [generate_presigned_url("get_object", {Bucket, Key}, ExpiresIn=3600)]
    call per listed object, in listing order, and answers 200 with one
    {"key", "url"} record per object, in the same order, whose "key" is the
    object's "Key" and whose "url" is what the call for that object
    returned.  The first part gives the run for every choice of returned
    URLs; the second says that every run without a raised exception is one
    of these. *)
Theorem gallery_get_lists_objects
  (a : app) (s3 : client) (bucket : string) (request : request)
  (l : list (string * json)) (objs : list (list (string * json))) :
  s3_client a = Some s3 ->
  s3_bucket a = Some bucket ->
  truthy_str bucket = true ->
  method request = GET ->
  lookup l "Contents" (JList []) = JList (map JDict objs) ->
  let listed :=
    Event (S3_list_objects_v2 s3 bucket) (Return (JDict l)) in
  let signed (ou : list (string * json) * string) :=
    Event (S3_generate_presigned_url
             s3 "get_object"
             (JDict [("Bucket", JStr bucket);
                     ("Key", lookup (fst ou) "Key" JNull)])
             3600)
          (Return (snd ou)) in
  let item (ou : list (string * json) * string) :=
    JDict [("key", lookup (fst ou) "Key" JNull); ("url", JStr (snd ou))] in
  (forall urls : list string,
     length urls = length objs ->
     runs (gallery a request)
       (listed :: map signed (combine objs urls))
       (Return {| body := JList (map item (combine objs urls));
                  status := 200 |}))
  /\ (forall t r,
        runs (gallery a request) (listed :: t) r ->
        Forall answered t ->
        exists urls : list string,
          length urls = length objs
          /\ t = map signed (combine objs urls)
          /\ r = Return {| body := JList (map item (combine objs urls));
                           status := 200 |}).
Proof.
  intros Hc Hb Hbt Hm Hl listed signed item.
  unfold gallery. rewrite Hc, Hb, Hbt, Hm. cbn [negb is_GET].
  split.
  - intros urls Hlen. apply runs_try_except_Return.
    change (listed :: map signed (combine objs urls))
      with ([listed] ++ map signed (combine objs urls)).
    eapply runs_bind with (x := JDict l).
    { simpl. eexists _, _. split; [reflexivity | split; reflexivity]. }
    cbn [get lift bind seq]. rewrite Hl. cbn [items bind seq lift].
    rewrite <- (app_nil_r (map signed (combine objs urls))).
    eapply runs_bind.
    { exact (sign_loop_runs s3 bucket objs urls Hlen). }
    simpl. split; reflexivity.
  - intros t r Hrun Hok.
    apply runs_try_except_inv in Hrun as (t1 & res & Hrun & Hend).
    apply runs_bind_inv in Hrun as (t2 & res2 & Hcall & Hrest).
    simpl in Hcall. destruct Hcall as (ans & t0 & -> & Ht0 & Hres2).
    subst t0 res2.
    assert (Hhd : exists tl, t1 = Event (S3_list_objects_v2 s3 bucket) ans :: tl).
    { destruct ans as [x | e].
      - destruct Hrest as (t3 & -> & _). eexists; reflexivity.
      - destruct Hrest as [-> _]. eexists; reflexivity. }
    assert (Hpre : exists tl', listed :: t = t1 ++ tl').
    { destruct res as [x | e].
      - destruct Hend as [-> _]. exists []. now rewrite app_nil_r.
      - destruct Hend as (t4 & -> & _). eexists; reflexivity. }
    assert (Hans : ans = Return (JDict l)).
    { destruct Hhd as (tl & Etl), Hpre as (tl' & Etl').
      rewrite Etl in Etl'. simpl in Etl'.
      assert (Hev : listed = Event (S3_list_objects_v2 s3 bucket) ans)
        by congruence.
      symmetry. exact (Event_inj _ _ _ Hev). }
    clear Hhd Hpre.
    subst ans. destruct Hrest as (t3 & -> & Hrest).
    cbn [get lift bind seq] in Hrest. rewrite Hl in Hrest.
    cbn [items bind seq lift] in Hrest.
    apply runs_bind_inv in Hrest as (t4 & res4 & Hloop & Hret).
    assert (Ht : exists t5, t = t4 ++ t5).
    { destruct res as [x | e].
      - destruct Hend as [E _]. destruct res4 as [bs | e4].
        + destruct Hret as (t5 & -> & _). exists t5.
          simpl in E. congruence.
        + destruct Hret as [-> _]. exists []. rewrite app_nil_r.
          simpl in E. congruence.
      - destruct Hend as (t6 & E & _). destruct res4 as [bs | e4].
        + destruct Hret as (t5 & -> & _). exists (t5 ++ t6).
          simpl in E. rewrite app_assoc. congruence.
        + destruct Hret as [-> _]. exists t6. simpl in E. congruence. }
    destruct Ht as (t5 & ->).
    apply Forall_app in Hok as [Hok4 Hok5].
    destruct (sign_loop_inv s3 bucket objs t4 res4 Hloop Hok4)
      as (urls & Hlen & -> & ->).
    destruct Hret as (t7 & -> & Hret). simpl in Hret.
    destruct Hret as [-> ->]. rewrite app_nil_r in Hend.
    destruct Hend as [E ->]. exists urls.
    simpl in E. injection E as E.
    assert (H5 : t5 = []).
    { apply (f_equal (@length event)) in E. rewrite length_app in E.
      destruct t5; [reflexivity | simpl in E; lia]. }
    subst t5. rewrite app_nil_r. repeat split. exact Hlen.
Qed.

Lemma gallery_get_lists_objects_witness :
  let a := create_app {| boto3 := true; stripe_pkg := false |}
             [("S3_BUCKET_NAME", "gulin-gallery")] in
  let s3 := {| service := "s3"; region_name := "us-east-1" |} in
  let sign key :=
    S3_generate_presigned_url
      s3 "get_object"
      (JDict [("Bucket", JStr "gulin-gallery"); ("Key", JStr key)]) 3600 in
  let l := [("KeyCount", JInt 2);
            ("Contents", JList [JDict [("Key", JStr "b.jpg")];
                                JDict [("Key", JStr "a.jpg")]])] in
  let request := {| method := GET; data := None; files := [] |} in
  runs (gallery a request)
    [Event (S3_list_objects_v2 s3 "gulin-gallery") (Return (JDict l));
     Event (sign "b.jpg") (Return "https://s3.example/b.jpg?sig=1"%string);
     Event (sign "a.jpg") (Return "https://s3.example/a.jpg?sig=2"%string)]
    (Return
       {| body :=
            JList [JDict [("key", JStr "b.jpg");
                          ("url", JStr "https://s3.example/b.jpg?sig=1")];
                   JDict [("key", JStr "a.jpg");
                          ("url", JStr "https://s3.example/a.jpg?sig=2")]];
          status := 200 |}).
Proof.
  intros a s3 sign l request.
  exact (proj1 (gallery_get_lists_objects
                  a s3 "gulin-gallery" request l
                  [[("Key", JStr "b.jpg")]; [("Key", JStr "a.jpg")]]
                  eq_refl eq_refl eq_refl eq_refl eq_refl)
           ["https://s3.example/b.jpg?sig=1"%string;
            "https://s3.example/a.jpg?sig=2"%string]
           eq_refl).
Defined.

(* ================================================================= *)
(** ** Calendar: entries with missing properties *)







(** The run of that request, computed. *)
Example calendar_degraded_entries :
  let a := create_app {| boto3 := false; stripe_pkg := false |}
             [("NOTION_TOKEN", "secret_1"); ("NOTION_DATABASE_ID", "db-1")] in
  let name := JDict [("title", JList [JDict [("plain_text", JStr "Wed")];
                                      JDict [("plain_text", JStr "ding")]])] in
  let date := JDict [("date", JDict [("start", JStr "2024-05-01");
                                     ("end", JNull)])] in
  let pages := [JDict [("properties", JDict [("Name", name); ("Date", date)])];
                JDict [("properties", JDict [("Date", date)])];
                JDict [("properties", JDict [("Name", name)])];
                JDict [("id", JStr "p4")]] in
  let resp := {| status_code := 200; text := "{...}";
                 json_ := Return (JDict [("results", JList pages)]) |} in
  runs (get_calendar_events a)
    [Event (Requests_post (notion_api_url "db-1")
              (notion_headers "secret_1") (JDict []))
           (Return resp)]
    (Return
       {| body :=
            JList [JDict [("title", JStr "Wedding");
                          ("start", JStr "2024-05-01"); ("end", JNull)];
                   JDict [("title", JStr "");
                          ("start", JStr "2024-05-01"); ("end", JNull)];
                   JDict [("title", JStr "Wedding");
                          ("start", JNull); ("end", JNull)];
                   JDict [("title", JStr "");
                          ("start", JNull); ("end", JNull)]];
          status := 200 |}).
Proof.
  cbn. eexists _, _. split; [reflexivity | split; reflexivity].
Qed.

(* ================================================================= *)
(** ** Views whose handler only builds a response *)

(** A [try] whose handler just returns a response: the calls are those of
    the body, and the result is the body's, or the handler's response to
    what the body raised. *)
Lemma runs_try_responding {A} (m : M A) (g : exn -> A) t r :
  runs (try_except m (fun exc => ret (g exc))) t r
  <-> exists res,
        runs m t res
        /\ r = Return match res with
                      | Return x => x
                      | Raise exc => g exc
                      end.
Proof.
  split.
  - intro H. apply runs_try_except_inv in H as (t1 & res & Hm & Hend).
    exists res. destruct res as [x | exc].
    + destruct Hend as [-> ->]. split; [exact Hm | reflexivity].
    + destruct Hend as (t2 & -> & [-> ->]). rewrite app_nil_r.
      split; [exact Hm | reflexivity].
  - intros (res & Hm & ->). unfold try_except.
    rewrite <- (app_nil_r t). eapply runs_seq; [exact Hm | ].
    destruct res; simpl; split; reflexivity.
Qed.

Lemma runs_bind_Return_inv {A B} (m : M A) (f : A -> M B) t b :
  runs (bind m f) t (Return b) ->
  exists x t1 t2,
    t = t1 ++ t2 /\ runs m t1 (Return x) /\ runs (f x) t2 (Return b).
Proof.
  intro H. apply runs_bind_inv in H as (t1 & res & Hm & Hend).
  destruct res as [x | e].
  - destruct Hend as (t2 & -> & Hf). exists x, t1, t2. auto.
  - destruct Hend as [_ Hb]. discriminate.
Qed.

Lemma runs_bind_Raise {A B} (m : M A) (f : A -> M B) t e :
  runs m t (Raise e) -> runs (bind m f) t (Raise e).
Proof.
  intro Hm. unfold bind. rewrite <- (app_nil_r t).
  eapply runs_seq; [exact Hm | ]. simpl. split; reflexivity.
Qed.

Lemma cons_Event_inv (c : extcall) (r r' : py (answer c)) t t' :
  Event c r :: t = Event c r' :: t' -> r = r' /\ t = t'.
Proof.
  intro E. split.
  - apply Event_inj. exact (f_equal (hd (Event c r)) E).
  - exact (f_equal (@tl event) E).
Qed.

(* ================================================================= *)
(** ** Gallery listing: failures *)

Section ListingFailure.

Variables (s3 : client) (bucket : string).

Let sign (obj : json) : M json :=
  (key <- lift (get obj "Key" JNull) ;;
   url <- call (S3_generate_presigned_url
                  s3 "get_object"
                  (JDict [("Bucket", JStr bucket); ("Key", key)])
                  3600) ;;
   ret (JDict [("key", key); ("url", JStr url)]))%prog.

Let signed (ou : list (string * json) * string) : event :=
  Event (S3_generate_presigned_url
           s3 "get_object"
           (JDict [("Bucket", JStr bucket);
                   ("Key", lookup (fst ou) "Key" JNull)])
           3600)
        (Return (snd ou)).

Let refused (o : list (string * json)) (exc : exn) : event :=
  Event (S3_generate_presigned_url
           s3 "get_object"
           (JDict [("Bucket", JStr bucket); ("Key", lookup o "Key" JNull)])
           3600)
        (Raise exc).

(** The loop stops at the first link that cannot be signed. *)
Lemma sign_loop_stops (pre post : list (list (string * json)))
  (o : list (string * json)) (exc : exn) :
  forall urls : list string,
    length urls = length pre ->
    runs (for_each sign (map JDict (pre ++ o :: post)))
      (map signed (combine pre urls) ++ [refused o exc])
      (Raise exc).
Proof.
  induction pre as [ | p pre IH]; intros urls Hlen.
  - destruct urls; [ | discriminate]. cbn [List.app combine map].
    cbn [for_each]. apply runs_bind_Raise.
    cbn. eexists _, _. split; [reflexivity | split; reflexivity].
  - destruct urls as [ | u urls]; [discriminate | ].
    injection Hlen as Hlen. specialize (IH urls Hlen).
    change (map JDict ((p :: pre) ++ o :: post))
      with (JDict p :: map JDict (pre ++ o :: post)).
    change (map signed (combine (p :: pre) (u :: urls)) ++ [refused o exc])
      with ([signed (p, u)]
              ++ (map signed (combine pre urls) ++ [refused o exc])).
    cbn [for_each].
    eapply runs_bind
      with (x := JDict [("key", lookup p "Key" JNull); ("url", JStr u)]).
    + cbn. eexists _, _. split; [reflexivity | split; reflexivity].
    + apply runs_bind_Raise. exact IH.
Qed.

End ListingFailure.

(** X1 -- GET /api/gallery, storage configured, the listing call raises:
    the view answers 500 with the exception's text, and the run ends
    there: no link is signed. *)
Theorem gallery_listing_failure
  (a : app) (s3 : client) (bucket : string) (request : request)
  (exc : exn) :
  s3_client a = Some s3 ->
  s3_bucket a = Some bucket ->
  truthy_str bucket = true ->
  method request = GET ->
  runs (gallery a request)
    [Event (S3_list_objects_v2 s3 bucket) (Raise exc)]
    (Return {| body := JDict [("error", JStr (str_exn exc))];
               status := 500 |})
  /\ forall t r,
       runs (gallery a request)
         (Event (S3_list_objects_v2 s3 bucket) (Raise exc) :: t) r ->
       t = [].
Proof.
  intros Hc Hb Hbt Hm.
  unfold gallery. rewrite Hc, Hb, Hbt, Hm. cbn [negb is_GET]. split.
  - cbn. eexists _, _. split; [reflexivity | split; reflexivity].
  - intros t r Hrun. cbn in Hrun.
    destruct Hrun as (ans & t' & E & Hk).
    apply cons_Event_inv in E as [<- <-]. cbn in Hk.
    destruct Hk as [-> _]. reflexivity.
Qed.

Lemma gallery_listing_failure_witness :
  let a := create_app {| boto3 := true; stripe_pkg := false |}
             [("S3_BUCKET_NAME", "gulin-gallery")] in
  let s3 := {| service := "s3"; region_name := "us-east-1" |} in
  let request := {| method := GET; data := None; files := [] |} in
  runs (gallery a request)
    [Event (S3_list_objects_v2 s3 "gulin-gallery")
           (Raise (ServiceError "NoSuchBucket"))]
    (Return {| body := JDict [("error", JStr "NoSuchBucket")];
               status := 500 |}).
Proof.
  intros a s3 request.
  exact (proj1 (gallery_listing_failure
                  a s3 "gulin-gallery" request (ServiceError "NoSuchBucket")
                  eq_refl eq_refl eq_refl eq_refl)).
Defined.

(** X2 -- GET /api/gallery, storage configured, the listing succeeds and
    the link of one object cannot be signed: the links of the objects
    before it were signed, none is asked for after it, and the answer is
    the 500 with the exception's text; the records built so far are not
    returned. *)
Theorem gallery_presign_failure
  (a : app) (s3 : client) (bucket : string) (request : request)
  (l : list (string * json)) (pre post : list (list (string * json)))
  (o : list (string * json)) (urls : list string) (exc : exn) :
  s3_client a = Some s3 ->
  s3_bucket a = Some bucket ->
  truthy_str bucket = true ->
  method request = GET ->
  lookup l "Contents" (JList []) = JList (map JDict (pre ++ o :: post)) ->
  length urls = length pre ->
  let sign key :=
    S3_generate_presigned_url
      s3 "get_object" (JDict [("Bucket", JStr bucket); ("Key", key)]) 3600 in
  runs (gallery a request)
    (Event (S3_list_objects_v2 s3 bucket) (Return (JDict l))
     :: map (fun ou : list (string * json) * string =>
               Event (sign (lookup (fst ou) "Key" JNull)) (Return (snd ou)))
          (combine pre urls)
     ++ [Event (sign (lookup o "Key" JNull)) (Raise exc)])
    (Return {| body := JDict [("error", JStr (str_exn exc))];
               status := 500 |}).
Proof.
  intros Hc Hb Hbt Hm Hl Hlen sign.
  unfold gallery. rewrite Hc, Hb, Hbt, Hm. cbn [negb is_GET].
  apply runs_try_responding. exists (Raise exc). split; [ | reflexivity].
  match goal with
  | |- runs _ (?e :: ?rest) _ => change (e :: rest) with ([e] ++ rest)
  end.
  eapply runs_bind with (x := JDict l).
  { simpl. eexists _, _. split; [reflexivity | split; reflexivity]. }
  cbn [get lift bind seq]. rewrite Hl. cbn [items bind seq lift].
  apply runs_bind_Raise.
  exact (sign_loop_stops s3 bucket pre post o exc urls Hlen).
Qed.

Lemma gallery_presign_failure_witness :
  let a := create_app {| boto3 := true; stripe_pkg := false |}
             [("S3_BUCKET_NAME", "gulin-gallery")] in
  let s3 := {| service := "s3"; region_name := "us-east-1" |} in
  let sign key :=
    S3_generate_presigned_url
      s3 "get_object"
      (JDict [("Bucket", JStr "gulin-gallery"); ("Key", key)]) 3600 in
  let l := [("Contents", JList [JDict [("Key", JStr "a.jpg")];
                                JDict [("Size", JInt 3)];
                                JDict [("Key", JStr "c.jpg")]])] in
  let request := {| method := GET; data := None; files := [] |} in
  runs (gallery a request)
    [Event (S3_list_objects_v2 s3 "gulin-gallery") (Return (JDict l));
     Event (sign (JStr "a.jpg")) (Return "https://s3.example/a.jpg"%string);
     Event (sign JNull) (Raise (ServiceError "Invalid type for Key"))]
    (Return {| body := JDict [("error", JStr "Invalid type for Key")];
               status := 500 |}).
Proof.
  intros a s3 sign l request.
  exact (gallery_presign_failure
           a s3 "gulin-gallery" request l
           [[("Key", JStr "a.jpg")]] [[("Key", JStr "c.jpg")]]
           [("Size", JInt 3)] ["https://s3.example/a.jpg"%string]
           (ServiceError "Invalid type for Key")
           eq_refl eq_refl eq_refl eq_refl eq_refl eq_refl).
Defined.

(* ================================================================= *)
(** ** No exception leaves the gallery listing *)

(** X3 -- GET /api/gallery, any application state, any behaviour of S3:
    the view reads nothing of the request but its method, and every one of
    its calls and of its steps on their answers sits inside the [try], so
    every run ends in a response, never in an exception, and its status is
    200 or 500. *)
Theorem gallery_get_always_responds
  (a : app) (request : request) (t : list event) (r : py response) :
  method request = GET ->
  runs (gallery a request) t r ->
  exists resp,
    r = Return resp /\ (status resp = 200 \/ status resp = 500).
Proof.
  unfold gallery. intros Hm H.
  destruct (s3_client a) as [s3 | ];
    [ | destruct H as [_ ->]; eexists; split; [reflexivity | auto] ].
  destruct (s3_bucket a) as [bucket | ];
    [ | destruct H as [_ ->]; eexists; split; [reflexivity | auto] ].
  destruct (truthy_str bucket); cbn [negb] in H;
    [ | destruct H as [_ ->]; eexists; split; [reflexivity | auto] ].
  rewrite Hm in H. cbn [is_GET] in H.
  apply runs_try_responding in H as (res & Hbody & ->).
  destruct res as [x | exc];
    [ | eexists; split; [reflexivity | auto] ].
  apply runs_bind_Return_inv in Hbody as (x1 & t1 & t2 & -> & _ & Hbody).
  apply runs_bind_Return_inv in Hbody as (x2 & t3 & t4 & -> & _ & Hbody).
  apply runs_bind_Return_inv in Hbody as (x3 & t5 & t6 & -> & _ & Hbody).
  apply runs_bind_Return_inv in Hbody as (x4 & t7 & t8 & -> & _ & Hbody).
  simpl in Hbody. destruct Hbody as [_ Hx]. injection Hx as ->.
  eexists; split; [reflexivity | auto].
Qed.

Lemma gallery_get_always_responds_witness :
  let a := create_app {| boto3 := true; stripe_pkg := false |}
             [("S3_BUCKET_NAME", "gulin-gallery")] in
  let request := {| method := GET; data := None; files := [] |} in
  let run := exec Demo.answers (gallery a request) 0%nat in
  exists resp,
    fst (fst run) = Return resp
    /\ (status resp = 200 \/ status resp = 500).
Proof.
  intros a request run.
  exact (gallery_get_always_responds
           a request (snd (fst run)) (fst (fst run)) eq_refl
           (exec_runs Demo.answers (gallery a request) 0%nat)).
Defined.

(* ================================================================= *)
(** ** Payments: what is sent to Stripe, and when nothing is *)

(** X4 -- POST /api/payments, processor configured, JSON object body with
    a truthy amount that [int] converts to [n]: every run makes exactly
    one call, [PaymentIntent.create] with [n], the body's currency ("usd"
    when it has none) and the body's metadata (an empty object when it has
    none); the answer is the 200 that holds nothing but the intent's client
    secret, or the 500 with the text of what Stripe raised. *)
Theorem create_payment_charges_once
  (int_of_str : string -> py Z) (a : app) (stripe0 : stripe_module)
  (key : string) (request : request) (d : list (string * json)) (n : Z)
  (t : list event) (r : py response) :
  stripe a = Some stripe0 ->
  stripe_secret_key a = Some key ->
  data request = Some (JDict d) ->
  truthy (lookup d "amount" JNull) = true ->
  int int_of_str (lookup d "amount" JNull) = Return n ->
  runs (create_payment int_of_str a request) t r ->
  exists ans : py payment_intent,
    t = [Event (Stripe_PaymentIntent_create
                  (api_key stripe0) n
                  (lookup d "currency" (JStr "usd"))
                  (lookup d "metadata" (JDict [])))
               ans]
    /\ r = Return
             match ans with
             | Return intent =>
                 {| body := JDict [("client_secret",
                                    JStr (client_secret intent))];
                    status := 200 |}
             | Raise exc =>
                 {| body := JDict [("error", JStr (str_exn exc))];
                    status := 500 |}
             end.
Proof.
  intros Hs Hk Hd Ht Hn Hrun.
  rewrite (create_payment_validation_steps _ _ _ _ _ _ Hs Hk Hd) in Hrun.
  cbv zeta in Hrun. rewrite Ht in Hrun. cbn [negb] in Hrun.
  rewrite Hn in Hrun. cbn in Hrun.
  destruct Hrun as (ans & t' & -> & Hk'). exists ans.
  destruct ans as [intent | exc]; cbn in Hk'; destruct Hk' as [-> ->];
    split; reflexivity.
Qed.

Lemma create_payment_charges_once_witness :
  let int_of_str := fun _ : string => Return 1250%Z in
  let a := create_app {| boto3 := false; stripe_pkg := true |}
             [("STRIPE_SECRET_KEY", "sk_test_1")] in
  let d := [("amount", JStr "1250");
            ("metadata", JDict [("session", JStr "family")])] in
  let request := {| method := POST; data := Some (JDict d); files := [] |} in
  let t := [Event (Stripe_PaymentIntent_create
                     (Some "sk_test_1") 1250 (JStr "usd")
                     (JDict [("session", JStr "family")]))
                  (Raise (ServiceError "Your card was declined."))] in
  let r := Return (error "Your card was declined." 500) in
  runs (create_payment int_of_str a request) t r
  /\ exists ans : py payment_intent,
       t = [Event (Stripe_PaymentIntent_create
                     (Some "sk_test_1") 1250 (JStr "usd")
                     (JDict [("session", JStr "family")]))
                  ans]
       /\ r = Return
                match ans with
                | Return intent =>
                    {| body := JDict [("client_secret",
                                       JStr (client_secret intent))];
                       status := 200 |}
                | Raise exc =>
                    {| body := JDict [("error", JStr (str_exn exc))];
                       status := 500 |}
                end.
Proof.
  intros int_of_str a d request t r.
  assert (Hrun : runs (create_payment int_of_str a request) t r).
  { cbn. eexists _, _. split; [reflexivity | split; reflexivity]. }
  split; [exact Hrun | ].
  exact (create_payment_charges_once
           int_of_str a {| api_key := Some "sk_test_1" |} "sk_test_1"
           request d 1250 t r eq_refl eq_refl eq_refl eq_refl eq_refl Hrun).
Defined.

(** X5 -- POST /api/payments, processor configured, JSON object body with
    a truthy amount that [int] refuses (a list, an object, a NaN or an
    infinity, a string that is no number): the view answers 500 with the
    text of that exception and Stripe is not called. *)
Theorem create_payment_unusable_amount
  (int_of_str : string -> py Z) (a : app) (stripe0 : stripe_module)
  (key : string) (request : request) (d : list (string * json)) (exc : exn) :
  stripe a = Some stripe0 ->
  stripe_secret_key a = Some key ->
  data request = Some (JDict d) ->
  truthy (lookup d "amount" JNull) = true ->
  int int_of_str (lookup d "amount" JNull) = Raise exc ->
  create_payment int_of_str a request
  = Ret (Return {| body := JDict [("error", JStr (str_exn exc))];
                   status := 500 |}).
Proof.
  intros Hs Hk Hd Ht Hn.
  rewrite (create_payment_validation_steps _ _ _ _ _ _ Hs Hk Hd).
  cbv zeta. rewrite Ht. cbn [negb]. rewrite Hn. reflexivity.
Qed.

Lemma create_payment_unusable_amount_witness :
  let int_of_str := fun _ : string => Return 0%Z in
  let a := create_app {| boto3 := false; stripe_pkg := true |}
             [("STRIPE_SECRET_KEY", "sk_test_1")] in
  let d := [("amount", JFloat S754_nan)] in
  let request := {| method := POST; data := Some (JDict d); files := [] |} in
  create_payment int_of_str a request
  = Ret (Return {| body := JDict [("error",
                                   JStr "cannot convert float NaN to integer")];
                   status := 500 |}).
Proof.
  intros int_of_str a d request.
  exact (create_payment_unusable_amount
           int_of_str a {| api_key := Some "sk_test_1" |} "sk_test_1"
           request d (ValueError "cannot convert float NaN to integer")
           eq_refl eq_refl eq_refl eq_refl eq_refl).
Defined.

(** X6 -- [create_app] tests the Stripe key for truth when it installs it
    (line 57) and [create_payment] tests it against [None] (line 113): when
    the stripe package is present and STRIPE_SECRET_KEY is set, the view
    goes on to call Stripe, with the key when it is not empty and with no
    key at all when it is the empty string; it reports no configuration
    error. *)
Theorem create_payment_key_sent
  (int_of_str : string -> py Z) (pkgs : imports)
  (environ : list (string * string)) (key : string) (request : request)
  (d : list (string * json)) (n : Z) (t : list event) (r : py response) :
  stripe_pkg pkgs = true ->
  dict_get "STRIPE_SECRET_KEY" environ = Some key ->
  data request = Some (JDict d) ->
  truthy (lookup d "amount" JNull) = true ->
  int int_of_str (lookup d "amount" JNull) = Return n ->
  runs (create_payment int_of_str (create_app pkgs environ) request) t r ->
  exists ans : py payment_intent,
    t = [Event (Stripe_PaymentIntent_create
                  (if truthy_str key then Some key else None) n
                  (lookup d "currency" (JStr "usd"))
                  (lookup d "metadata" (JDict [])))
               ans].
Proof.
  intros Hp Hkey Hd Ht Hn Hrun.
  assert (Hs : stripe (create_app pkgs environ)
               = Some {| api_key := if truthy_str key
                                    then Some key else None |})
    by (simpl; rewrite Hp, Hkey; reflexivity).
  assert (Hk : stripe_secret_key (create_app pkgs environ) = Some key)
    by exact Hkey.
  rewrite (create_payment_validation_steps _ _ _ _ _ _ Hs Hk Hd) in Hrun.
  cbv zeta in Hrun. rewrite Ht in Hrun. cbn [negb] in Hrun.
  rewrite Hn in Hrun. cbn in Hrun.
  destruct Hrun as (ans & t' & -> & Hend). exists ans.
  destruct ans as [intent | exc]; cbn in Hend; destruct Hend as [-> _];
    reflexivity.
Qed.

Lemma create_payment_key_sent_witness :
  let int_of_str := fun _ : string => Return 0%Z in
  let environ := [("STRIPE_SECRET_KEY", "")] in
  let pkgs := {| boto3 := false; stripe_pkg := true |} in
  let d := [("amount", JInt 500); ("currency", JStr "aud")] in
  let request := {| method := POST; data := Some (JDict d); files := [] |} in
  let t := [Event (Stripe_PaymentIntent_create
                     None 500 (JStr "aud") (JDict []))
                  (Raise (ServiceError "No API key provided."))] in
  let r := Return (error "No API key provided." 500) in
  runs (create_payment int_of_str (create_app pkgs environ) request) t r
  /\ exists ans : py payment_intent,
       t = [Event (Stripe_PaymentIntent_create
                     None 500 (JStr "aud") (JDict []))
                  ans].
Proof.
  intros int_of_str environ pkgs d request t r.
  assert (Hrun : runs (create_payment int_of_str (create_app pkgs environ)
                         request) t r).
  { cbn. eexists _, _. split; [reflexivity | split; reflexivity]. }
  split; [exact Hrun | ].
  exact (create_payment_key_sent
           int_of_str pkgs environ "" request d 500 t r
           eq_refl eq_refl eq_refl eq_refl eq_refl Hrun).
Defined.

(* ================================================================= *)
(** ** Bodies that are not JSON objects *)

(** X7 -- the payments and notifications views read the body outside
    their [try]: when the service is configured and the body is not a JSON
    object, the exception leaves the view, before any call: [BadRequest]
    when the body is not JSON at all, [AttributeError] when it is JSON of
    another kind (a list, a string, a number, null). *)
Theorem body_not_an_object_raises
  (int_of_str : string -> py Z) (a : app) (request : request) :
  (forall d, data request <> Some (JDict d)) ->
  let exc :=
    match data request with
    | None =>
        BadRequest ("The browser (or proxy) sent a request that this "
                    ++ "server could not understand.")
    | Some v =>
        AttributeError ("'" ++ type_name v
                        ++ "' object has no attribute 'get'")
    end%string in
  (forall stripe0 key,
     stripe a = Some stripe0 -> stripe_secret_key a = Some key ->
     create_payment int_of_str a request = Ret (Raise exc))
  /\ (forall sns,
        sns_client a = Some sns ->
        send_notification a request = Ret (Raise exc)).
Proof.
  intros Hno exc. split.
  - intros stripe0 key Hs Hk. unfold create_payment, get_json.
    rewrite Hs, Hk. subst exc.
    destruct (data request) as [v | ]; [ | reflexivity].
    destruct v; try reflexivity. exfalso. eapply Hno. reflexivity.
  - intros sns Hs. unfold send_notification, get_json.
    rewrite Hs. subst exc.
    destruct (data request) as [v | ]; [ | reflexivity].
    destruct v; try reflexivity. exfalso. eapply Hno. reflexivity.
Qed.

Lemma body_not_an_object_raises_witness :
  let int_of_str := fun _ : string => Return 0%Z in
  let a := create_app {| boto3 := true; stripe_pkg := true |}
             [("STRIPE_SECRET_KEY", "sk_test_1")] in
  let request := {| method := POST;
                    data := Some (JList [JDict [("amount", JInt 500)]]);
                    files := [] |} in
  create_payment int_of_str a request
  = Ret (Raise (AttributeError "'list' object has no attribute 'get'"))
  /\ send_notification a request
     = Ret (Raise (AttributeError "'list' object has no attribute 'get'")).
Proof.
  intros int_of_str a request.
  assert (Hno : forall d, data request <> Some (JDict d))
    by (intros d; discriminate).
  destruct (body_not_an_object_raises int_of_str a request Hno) as [Hp Hn].
  split.
  - exact (Hp {| api_key := Some "sk_test_1" |} "sk_test_1"%string
             eq_refl eq_refl).
  - exact (Hn {| service := "sns"; region_name := "us-east-1" |} eq_refl).
Defined.

(* ================================================================= *)
(** ** Notifications: the SMS path and the outcome of a request *)

(** X8 -- POST /api/notifications, SNS configured, JSON object body with
    a truthy message, no truthy topic_arn and a truthy phone_number: every
    run makes exactly one call, a [publish] with [PhoneNumber] and
    [Message] only; the subject, given or defaulted, is not sent. *)
Theorem notification_sms_path
  (a : app) (sns : client) (request : request) (d : list (string * json))
  (t : list event) (r : py response) :
  sns_client a = Some sns ->
  data request = Some (JDict d) ->
  truthy (lookup d "message" JNull) = true ->
  truthy (lookup d "topic_arn" JNull) = false ->
  truthy (lookup d "phone_number" JNull) = true ->
  runs (send_notification a request) t r ->
  exists ans : py json,
    t = [Event (SNS_publish sns
                  [("PhoneNumber", lookup d "phone_number" JNull);
                   ("Message", lookup d "message" JNull)])
               ans]
    /\ r = Return
             match ans with
             | Return response =>
                 match get response "MessageId" JNull with
                 | Return message_id =>
                     jsonify (JDict [("message_id", message_id)])
                 | Raise exc => error (str_exn exc) 500
                 end
             | Raise exc => error (str_exn exc) 500
             end.
Proof.
  intros Hsns Hdata Hm Ht Hp Hrun.
  unfold send_notification, get_json in Hrun.
  rewrite Hsns, Hdata in Hrun. cbn in Hrun. rewrite Hm, Ht, Hp in Hrun.
  cbn in Hrun. destruct Hrun as (ans & t' & -> & Hk). exists ans.
  destruct ans as [response | exc]; cbn in Hk.
  - destruct (get response "MessageId" JNull) as [mid | exc];
      cbn in Hk; destruct Hk as [-> ->]; split; reflexivity.
  - destruct Hk as [-> ->]; split; reflexivity.
Qed.

Lemma notification_sms_path_witness :
  let a := create_app {| boto3 := true; stripe_pkg := false |} [] in
  let sns := {| service := "sns"; region_name := "us-east-1" |} in
  let d := [("subject", JStr "Proofs"); ("message", JStr "Ready");
            ("phone_number", JStr "+61400000000")] in
  let request := {| method := POST; data := Some (JDict d); files := [] |} in
  let t := [Event (SNS_publish sns [("PhoneNumber", JStr "+61400000000");
                                    ("Message", JStr "Ready")])
                  (Return (JDict [("ResponseMetadata", JDict [])]))] in
  let r := Return (jsonify (JDict [("message_id", JNull)])) in
  runs (send_notification a request) t r
  /\ exists ans : py json,
       t = [Event (SNS_publish sns
                     [("PhoneNumber", lookup d "phone_number" JNull);
                      ("Message", lookup d "message" JNull)])
                  ans]
       /\ r = Return
                match ans with
                | Return response =>
                    match get response "MessageId" JNull with
                    | Return message_id =>
                        jsonify (JDict [("message_id", message_id)])
                    | Raise exc => error (str_exn exc) 500
                    end
                | Raise exc => error (str_exn exc) 500
                end.
Proof.
  intros a sns d request t r.
  assert (Hrun : runs (send_notification a request) t r).
  { cbn. eexists _, _. split; [reflexivity | split; reflexivity]. }
  split; [exact Hrun | ].
  exact (notification_sms_path a sns request d t r
           eq_refl eq_refl eq_refl eq_refl eq_refl Hrun).
Defined.

(** X9 -- POST /api/notifications, SNS configured, JSON object body, any
    behaviour of SNS: every run ends in a response with status 200, 400 or
    500 after at most one call, so a notification is never published
    twice.  The status is 400 exactly when the message is falsy or neither
    target is truthy, and then no call was made; with a truthy message and
    no truthy target the error is "topic_arn or phone_number must be
    provided". *)
Theorem notification_outcome
  (a : app) (sns : client) (request : request) (d : list (string * json))
  (t : list event) (r : py response) :
  sns_client a = Some sns ->
  data request = Some (JDict d) ->
  runs (send_notification a request) t r ->
  let message := lookup d "message" JNull in
  let topic_arn := lookup d "topic_arn" JNull in
  let phone_number := lookup d "phone_number" JNull in
  exists resp,
    r = Return resp
    /\ (length t <= 1)%nat
    /\ (status resp = 200 \/ status resp = 400 \/ status resp = 500)
    /\ (status resp = 400
        <-> truthy message = false
            \/ (truthy topic_arn = false /\ truthy phone_number = false))
    /\ (status resp = 400 -> t = [])
    /\ (truthy message = true -> truthy topic_arn = false ->
        truthy phone_number = false ->
        resp = error "topic_arn or phone_number must be provided" 400).
Proof.
  intros Hsns Hdata Hrun message topic_arn phone_number.
  unfold send_notification, get_json in Hrun.
  rewrite Hsns, Hdata in Hrun. cbn in Hrun.
  fold message topic_arn phone_number in Hrun.
  destruct (truthy message) eqn:Hm; cbn in Hrun.
  - destruct (truthy topic_arn) eqn:Ht; cbn in Hrun.
    + destruct Hrun as (ans & t' & -> & Hk).
      assert (Hend : t' = []
                     /\ exists resp, r = Return resp
                        /\ (status resp = 200 \/ status resp = 500)).
      { destruct ans as [response | exc]; cbn in Hk.
        - destruct (get response "MessageId" JNull) as [mid | exc];
            cbn in Hk; destruct Hk as [-> ->]; split; try reflexivity;
            eexists; split; try reflexivity; auto.
        - destruct Hk as [-> ->]; split; try reflexivity.
          eexists; split; try reflexivity; auto. }
      destruct Hend as (-> & resp & -> & Hst). exists resp.
      split; [reflexivity | ]. split; [simpl; lia | ].
      split; [tauto | ].
      assert (H4 : status resp <> 400)
        by (destruct Hst as [-> | ->]; discriminate).
      repeat split; try (intros; contradiction); try discriminate.
      intros [Hf | [Hf _]]; discriminate.
    + destruct (truthy phone_number) eqn:Hp; cbn in Hrun.
      * destruct Hrun as (ans & t' & -> & Hk).
        assert (Hend : t' = []
                       /\ exists resp, r = Return resp
                          /\ (status resp = 200 \/ status resp = 500)).
        { destruct ans as [response | exc]; cbn in Hk.
          - destruct (get response "MessageId" JNull) as [mid | exc];
              cbn in Hk; destruct Hk as [-> ->]; split; try reflexivity;
              eexists; split; try reflexivity; auto.
          - destruct Hk as [-> ->]; split; try reflexivity.
            eexists; split; try reflexivity; auto. }
        destruct Hend as (-> & resp & -> & Hst). exists resp.
        split; [reflexivity | ]. split; [simpl; lia | ].
        split; [tauto | ].
        assert (H4 : status resp <> 400)
          by (destruct Hst as [-> | ->]; discriminate).
        repeat split; try (intros; contradiction); try discriminate.
        intros [Hf | [_ Hf]]; discriminate.
      * destruct Hrun as [-> ->]. eexists. split; [reflexivity | ].
        split; [simpl; lia | ]. split; [auto | ].
        repeat split; auto.
  - destruct Hrun as [-> ->]. eexists. split; [reflexivity | ].
    split; [simpl; lia | ]. split; [auto | ].
    repeat split; auto; discriminate.
Qed.

Lemma notification_outcome_witness :
  let a := create_app {| boto3 := true; stripe_pkg := false |} [] in
  let sns := {| service := "sns"; region_name := "us-east-1" |} in
  let d := [("message", JStr "Ready"); ("topic_arn", JNull);
            ("phone_number", JStr "")] in
  let request := {| method := POST; data := Some (JDict d); files := [] |} in
  runs (send_notification a request) []
    (Return (error "topic_arn or phone_number must be provided" 400))
  /\ exists resp,
       Return (error "topic_arn or phone_number must be provided" 400)
       = Return resp
       /\ status resp = 400.
Proof.
  intros a sns d request.
  assert (Hrun : runs (send_notification a request) []
                   (Return (error "topic_arn or phone_number must be provided"
                              400))).
  { cbn. split; reflexivity. }
  split; [exact Hrun | ].
  destruct (notification_outcome a sns request d [] _ eq_refl eq_refl Hrun)
    as (resp & E & _ & _ & H400 & _).
  exists resp. split; [exact E | ].
  apply H400. right. split; reflexivity.
Defined.

(* ================================================================= *)
(** ** Calendar: the query and its failures *)

(** What the view does with the answer of Notion makes no further call
    and gives a 200 or a 500, or raises. *)
Lemma calendar_after_query (resp : http_response) t res :
  runs (if negb (status_code resp =? 200)%Z then
          ret (with_status
                 (jsonify (JDict [("error",
                                   JStr "Notion API returned an error");
                                  ("details", JStr (text resp))]))
                 500)
        else
          (data <- lift (json_ resp) ;;
           results <- lift (get data "results" (JList [])) ;;
           pages <- lift (items results) ;;
           events <- lift (py_map calendar_event pages) ;;
           ret (jsonify (JList events)))%prog) t res ->
  t = []
  /\ match res with
     | Return x => status x = 200 \/ status x = 500
     | Raise _ => True
     end.
Proof.
  destruct (negb (status_code resp =? 200)%Z).
  - intros [-> ->]. split; [reflexivity | right; reflexivity].
  - destruct (json_ resp) as [data | e]; cbn;
      [ | intros [-> ->]; split; [reflexivity | exact I] ].
    destruct (get data "results" (JList [])) as [results | e]; cbn;
      [ | intros [-> ->]; split; [reflexivity | exact I] ].
    destruct (items results) as [pages | e]; cbn;
      [ | intros [-> ->]; split; [reflexivity | exact I] ].
    destruct (py_map calendar_event pages) as [events | e]; cbn;
      intros [-> ->]; split; try reflexivity; try exact I.
    left; reflexivity.
Qed.

(** X10 -- GET /api/calendar.  Unless both NOTION_TOKEN and
    NOTION_DATABASE_ID are set and not empty, the view answers 500 "Notion
    is not configured" without a call, so the token is not sent anywhere.
    When both are, every run makes exactly one call, the POST of an empty
    JSON object to https://api.notion.com/v1/databases/<id>/query with the
    bearer token and version 2022-06-28, and ends in a response, never in
    an exception, with status 200 or 500. *)
Theorem calendar_single_query (a : app) :
  (truthy_opt (notion_token a) = false
   \/ truthy_opt (notion_database_id a) = false ->
   get_calendar_events a
   = Ret (Return {| body := JDict [("error",
                                    JStr "Notion is not configured")];
                    status := 500 |}))
  /\ (forall token database_id t r,
        notion_token a = Some token -> truthy_str token = true ->
        notion_database_id a = Some database_id ->
        truthy_str database_id = true ->
        runs (get_calendar_events a) t r ->
        (exists ans : py http_response,
           t = [Event (Requests_post
                         ("https://api.notion.com/v1/databases/"
                          ++ database_id ++ "/query")%string
                         [("Authorization", ("Bearer " ++ token)%string);
                          ("Notion-Version", "2022-06-28"%string);
                          ("Content-Type", "application/json"%string)]
                         (JDict []))
                      ans])
        /\ exists resp,
             r = Return resp /\ (status resp = 200 \/ status resp = 500)).
Proof.
  split.
  - unfold get_calendar_events, truthy_opt.
    destruct (notion_token a) as [token | ];
      destruct (notion_database_id a) as [database_id | ];
      try reflexivity.
    intros [H | H]; rewrite H; [reflexivity | ].
    rewrite orb_true_r. reflexivity.
  - intros token database_id t r Ht Htt Hd Hdt Hrun.
    unfold get_calendar_events in Hrun.
    rewrite Ht, Hd, Htt, Hdt in Hrun. cbn [negb orb] in Hrun.
    apply runs_try_responding in Hrun as (res & Hbody & ->).
    apply runs_bind_inv in Hbody as (t1 & res1 & Hcall & Hend).
    simpl in Hcall. destruct Hcall as (ans & t0 & -> & -> & ->).
    destruct ans as [resp | exc].
    + destruct Hend as (t2 & -> & Htail).
      apply calendar_after_query in Htail as [-> Hst]. split.
      * exists (Return resp). reflexivity.
      * destruct res as [x | e]; eexists; split; try reflexivity.
        -- exact Hst.
        -- right; reflexivity.
    + destruct Hend as [-> ->]. split.
      * exists (Raise exc). reflexivity.
      * eexists; split; [reflexivity | right; reflexivity].
Qed.

Lemma calendar_single_query_witness :
  let a := create_app {| boto3 := false; stripe_pkg := false |}
             [("NOTION_TOKEN", "secret_1"); ("NOTION_DATABASE_ID", "db-1")] in
  let unset := create_app {| boto3 := false; stripe_pkg := false |}
                 [("NOTION_TOKEN", "secret_1"); ("NOTION_DATABASE_ID", "")] in
  let run := exec Demo.answers (get_calendar_events a) 0%nat in
  get_calendar_events unset
  = Ret (Return {| body := JDict [("error",
                                   JStr "Notion is not configured")];
                   status := 500 |})
  /\ (exists ans : py http_response,
        snd (fst run)
        = [Event (Requests_post
                    "https://api.notion.com/v1/databases/db-1/query"
                    [("Authorization", "Bearer secret_1"%string);
                     ("Notion-Version", "2022-06-28"%string);
                     ("Content-Type", "application/json"%string)]
                    (JDict []))
                 ans])
  /\ exists resp,
       fst (fst run) = Return resp
       /\ (status resp = 200 \/ status resp = 500).
Proof.
  intros a unset run. split.
  - apply (proj1 (calendar_single_query unset)). right. reflexivity.
  - exact (proj2 (calendar_single_query a) "secret_1"%string "db-1"%string
             (snd (fst run)) (fst (fst run))
             eq_refl eq_refl eq_refl eq_refl
             (exec_runs Demo.answers (get_calendar_events a) 0%nat)).
Defined.

(** X11 -- GET /api/calendar, configured: the three ways the upstream
    query fails.  When the request itself raises, the answer is a 500 with
    the exception's text.  When Notion answers with a status other than
    200, the answer is the 500 "Notion API returned an error" with the raw
    body of Notion's answer as "details", whatever that body is (it is not
    parsed).  When Notion answers 200 with a body that is not JSON, the
    answer is a 500 with the text of the decoding error. *)
Theorem calendar_upstream_failures
  (a : app) (token database_id : string) :
  notion_token a = Some token -> truthy_str token = true ->
  notion_database_id a = Some database_id ->
  truthy_str database_id = true ->
  let query := Requests_post (notion_api_url database_id)
                 (notion_headers token) (JDict []) in
  (forall exc,
     runs (get_calendar_events a) [Event query (Raise exc)]
       (Return {| body := JDict [("error", JStr (str_exn exc))];
                  status := 500 |}))
  /\ (forall resp : http_response,
        status_code resp <> 200 ->
        runs (get_calendar_events a) [Event query (Return resp)]
          (Return {| body := JDict [("error",
                                     JStr "Notion API returned an error");
                                    ("details", JStr (text resp))];
                     status := 500 |}))
  /\ (forall (resp : http_response) exc,
        status_code resp = 200 ->
        json_ resp = Raise exc ->
        runs (get_calendar_events a) [Event query (Return resp)]
          (Return {| body := JDict [("error", JStr (str_exn exc))];
                     status := 500 |})).
Proof.
  intros Ht Htt Hd Hdt query. subst query.
  unfold get_calendar_events. rewrite Ht, Hd, Htt, Hdt. cbn [negb orb].
  repeat split.
  - intro exc. cbn. eexists _, _. split; [reflexivity | ].
    cbn. split; reflexivity.
  - intros resp Hs. cbn. eexists _, _. split; [reflexivity | ].
    cbn. apply Z.eqb_neq in Hs. rewrite Hs. cbn. split; reflexivity.
  - intros resp exc Hs Hj. cbn. eexists _, _. split; [reflexivity | ].
    cbn. rewrite Hs, Hj. cbn. split; reflexivity.
Qed.

Lemma calendar_upstream_failures_witness :
  let a := create_app {| boto3 := false; stripe_pkg := false |}
             [("NOTION_TOKEN", "secret_1"); ("NOTION_DATABASE_ID", "db-1")] in
  let query := Requests_post (notion_api_url "db-1")
                 (notion_headers "secret_1") (JDict []) in
  let resp := {| status_code := 401;
                 text := "{'object': 'error', 'status': 401}";
                 json_ := Return (JDict [("object", JStr "error")]) |} in
  runs (get_calendar_events a) [Event query (Return resp)]
    (Return {| body := JDict [("error",
                               JStr "Notion API returned an error");
                              ("details",
                               JStr "{'object': 'error', 'status': 401}")];
               status := 500 |}).
Proof.
  intros a query resp.
  refine (proj1 (proj2 (calendar_upstream_failures
                          a "secret_1" "db-1"
                          eq_refl eq_refl eq_refl eq_refl)) resp _).
  discriminate.
Defined.

(* ================================================================= *)
(** ** Calendar: all pages or none, and what a page is flattened to *)

Lemma py_map_first_failure {A B} (f : A -> py B) (pre post : list A)
  (x : A) (ys : list B) (e : exn) :
  py_map f pre = Return ys -> f x = Raise e ->
  py_map f (pre ++ x :: post) = Raise e.
Proof.
  revert ys. induction pre as [ | y pre IH]; intros ys Hpre Hx; simpl.
  - rewrite Hx. reflexivity.
  - simpl in Hpre. destruct (f y) as [b | e0]; simpl in *; [ | discriminate].
    destruct (py_map f pre) as [bs | e0]; simpl in *; [ | discriminate].
    rewrite (IH bs eq_refl Hx). reflexivity.
Qed.

(** X12 -- GET /api/calendar, configured, Notion answers 200 with a list
    of pages of which one cannot be flattened while those before it can:
    the answer is the 500 with the text of the exception of that page.
    Nothing of the pages before it is returned, and the pages after it
    play no part. *)
Theorem calendar_all_or_nothing
  (a : app) (token database_id : string) (resp : http_response)
  (body0 : list (string * json)) (pre post : list json) (bad : json)
  (events : list json) (exc : exn) :
  notion_token a = Some token -> truthy_str token = true ->
  notion_database_id a = Some database_id ->
  truthy_str database_id = true ->
  status_code resp = 200 ->
  json_ resp = Return (JDict body0) ->
  lookup body0 "results" (JList []) = JList (pre ++ bad :: post) ->
  py_map calendar_event pre = Return events ->
  calendar_event bad = Raise exc ->
  runs (get_calendar_events a)
    [Event (Requests_post (notion_api_url database_id)
              (notion_headers token) (JDict []))
           (Return resp)]
    (Return {| body := JDict [("error", JStr (str_exn exc))];
               status := 500 |}).
Proof.
  intros Ht Htt Hd Hdt Hs Hj Hr Hpre Hbad.
  unfold get_calendar_events. rewrite Ht, Hd, Htt, Hdt. cbn.
  eexists _, _. split; [reflexivity | ].
  cbn. rewrite Hs, Hj. cbn. rewrite Hr. cbn.
  rewrite (py_map_first_failure calendar_event pre post bad events exc
             Hpre Hbad).
  cbn. split; reflexivity.
Qed.

Lemma calendar_all_or_nothing_witness :
  let a := create_app {| boto3 := false; stripe_pkg := false |}
             [("NOTION_TOKEN", "secret_1"); ("NOTION_DATABASE_ID", "db-1")] in
  let good := JDict [("properties",
                      JDict [("Name",
                              JDict [("title",
                                      JList [JDict [("plain_text",
                                                     JStr "Wedding")]])])])] in
  let bad := JDict [("properties",
                     JDict [("Name", JDict [("title", JInt 7)])])] in
  let resp := {| status_code := 200; text := "{...}";
                 json_ := Return (JDict [("results",
                                          JList [good; bad; JNull])]) |} in
  runs (get_calendar_events a)
    [Event (Requests_post (notion_api_url "db-1")
              (notion_headers "secret_1") (JDict []))
           (Return resp)]
    (Return {| body := JDict [("error",
                               JStr "'int' object is not iterable")];
               status := 500 |}).
Proof.
  intros a good bad resp.
  exact (calendar_all_or_nothing
           a "secret_1" "db-1" resp
           [("results", JList [good; bad; JNull])] [good] [JNull] bad
           [JDict [("title", JStr "Wedding"); ("start", JNull);
                   ("end", JNull)]]
           (TypeError "'int' object is not iterable")
           eq_refl eq_refl eq_refl eq_refl eq_refl eq_refl eq_refl
           eq_refl eq_refl).
Defined.

(** X13 -- GET /api/calendar, configured, Notion answers 200 with a JSON
    object: without a "results" member the answer is a 200 with the empty
    list; with a "results" that is null, a number or a boolean the answer
    is a 500 saying that the value is not iterable. *)
Theorem calendar_results_member
  (a : app) (token database_id : string) (resp : http_response)
  (body0 : list (string * json)) :
  notion_token a = Some token -> truthy_str token = true ->
  notion_database_id a = Some database_id ->
  truthy_str database_id = true ->
  status_code resp = 200 ->
  json_ resp = Return (JDict body0) ->
  let query := Requests_post (notion_api_url database_id)
                 (notion_headers token) (JDict []) in
  (dict_get "results" body0 = None ->
   runs (get_calendar_events a) [Event query (Return resp)]
     (Return {| body := JList []; status := 200 |}))
  /\ (forall v,
        dict_get "results" body0 = Some v ->
        match v with
        | JNull | JBool _ | JInt _ | JFloat _ => True
        | _ => False
        end ->
        runs (get_calendar_events a) [Event query (Return resp)]
          (Return {| body := JDict [("error",
                                     JStr ("'" ++ type_name v
                                           ++ "' object is not iterable"))];
                     status := 500 |})).
Proof.
  intros Ht Htt Hd Hdt Hs Hj query. subst query.
  unfold get_calendar_events. rewrite Ht, Hd, Htt, Hdt. cbn [negb orb].
  split.
  - intro Hnone. cbn. eexists _, _. split; [reflexivity | ].
    cbn. rewrite Hs, Hj. cbn. unfold lookup. rewrite Hnone. cbn.
    split; reflexivity.
  - intros v Hv Hkind. cbn. eexists _, _. split; [reflexivity | ].
    cbn. rewrite Hs, Hj. cbn. unfold lookup. rewrite Hv.
    destruct v; try contradiction; cbn; split; reflexivity.
Qed.

Lemma calendar_results_member_witness :
  let a := create_app {| boto3 := false; stripe_pkg := false |}
             [("NOTION_TOKEN", "secret_1"); ("NOTION_DATABASE_ID", "db-1")] in
  let query := Requests_post (notion_api_url "db-1")
                 (notion_headers "secret_1") (JDict []) in
  let empty := {| status_code := 200; text := "{}";
                  json_ := Return (JDict [("object", JStr "list")]) |} in
  let null := {| status_code := 200; text := "{}";
                 json_ := Return (JDict [("results", JNull)]) |} in
  runs (get_calendar_events a) [Event query (Return empty)]
    (Return {| body := JList []; status := 200 |})
  /\ runs (get_calendar_events a) [Event query (Return null)]
       (Return {| body := JDict [("error",
                                  JStr "'NoneType' object is not iterable")];
                  status := 500 |}).
Proof.
  intros a query empty null. split.
  - exact (proj1 (calendar_results_member
                    a "secret_1" "db-1" empty [("object", JStr "list")]
                    eq_refl eq_refl eq_refl eq_refl eq_refl eq_refl)
             eq_refl).
  - exact (proj2 (calendar_results_member
                    a "secret_1" "db-1" null [("results", JNull)]
                    eq_refl eq_refl eq_refl eq_refl eq_refl eq_refl)
             JNull eq_refl I).
Defined.

Lemma append_empty_r (s : string) : (s ++ "")%string = s.
Proof.
  induction s as [ | c s IH]; simpl; [reflexivity | now rewrite IH].
Qed.

Lemma join_from_concat (ss : list string) :
  forall i, join_from i (map JStr ss) = Return (String.concat "" ss).
Proof.
  induction ss as [ | s ss IH]; intro i; [reflexivity | ].
  cbn [map join_from]. rewrite (IH (S i)). cbn [py_bind].
  destruct ss as [ | s' ss']; simpl.
  - rewrite append_empty_r. reflexivity.
  - reflexivity.
Qed.

Lemma plain_texts_are (l : list json) :
  forallb rich_text_ok l = true ->
  py_map (fun item => get item "plain_text" (JStr "")) l
  = Return (map JStr (map Expected.plain_text_of l)).
Proof.
  induction l as [ | item l IH]; simpl; intro H; [reflexivity | ].
  apply andb_true_iff in H as [Hitem Hl]. rewrite (IH Hl).
  destruct item as [ | | | | | | i]; try discriminate. simpl.
  unfold lookup. simpl in Hitem.
  destruct (dict_get "plain_text" i) as [[ | | | | s | | ] | ];
    try discriminate; reflexivity.
Qed.

(** X14 -- what the loop of the calendar view makes of a complete page,
    one whose "Name" holds a "title" list of rich-text items and whose
    "Date" holds a "date" object: the title is the concatenation, in
    order, of the plain texts of the items (an item without one adds
    nothing), and start and end are the "start" and "end" of the date
    object, unchanged, null when the object has none. *)
Theorem calendar_event_flattens
  (p props n dt dd : list (string * json)) (title_items : list json) :
  dict_get "properties" p = Some (JDict props) ->
  dict_get "Name" props = Some (JDict n) ->
  dict_get "title" n = Some (JList title_items) ->
  forallb rich_text_ok title_items = true ->
  dict_get "Date" props = Some (JDict dt) ->
  dict_get "date" dt = Some (JDict dd) ->
  calendar_event (JDict p)
  = Return (JDict [("title",
                    JStr (String.concat ""
                            (map Expected.plain_text_of title_items)));
                   ("start", lookup dd "start" JNull);
                   ("end", lookup dd "end" JNull)]).
Proof.
  intros Hp Hn Ht Hok Hd Hdd.
  assert (Ep : lookup p "properties" (JDict []) = JDict props)
    by (unfold lookup; rewrite Hp; reflexivity).
  assert (En : lookup props "Name" (JDict []) = JDict n)
    by (unfold lookup; rewrite Hn; reflexivity).
  assert (Et : lookup n "title" (JList []) = JList title_items)
    by (unfold lookup; rewrite Ht; reflexivity).
  assert (Ed : lookup props "Date" (JDict []) = JDict dt)
    by (unfold lookup; rewrite Hd; reflexivity).
  assert (Edd : lookup dt "date" (JDict []) = JDict dd)
    by (unfold lookup; rewrite Hdd; reflexivity).
  unfold calendar_event. cbn [get py_bind]. rewrite Ep. cbn [get py_bind].
  rewrite En. cbn [get py_bind]. rewrite Et. cbn [items py_bind].
  rewrite (plain_texts_are title_items Hok). cbn [py_bind].
  unfold join. rewrite join_from_concat. cbn [py_bind].
  rewrite Ed. cbn [get py_bind]. rewrite Edd. cbn [get py_bind].
  reflexivity.
Qed.

Lemma calendar_event_flattens_witness :
  let dd := [("start", JStr "2024-05-01T10:00:00"); ("time_zone", JNull)] in
  let title_items := [JDict [("plain_text", JStr "Smith ")];
                      JDict [("type", JStr "mention")];
                      JDict [("plain_text", JStr "wedding")]] in
  let props := [("Date", JDict [("date", JDict dd)]);
                ("Name", JDict [("title", JList title_items)])] in
  calendar_event (JDict [("id", JStr "p1"); ("properties", JDict props)])
  = Return (JDict [("title", JStr "Smith wedding");
                   ("start", JStr "2024-05-01T10:00:00");
                   ("end", JNull)]).
Proof.
  intros dd title_items props.
  exact (calendar_event_flattens
           [("id", JStr "p1"); ("properties", JDict props)] props
           [("title", JList title_items)] [("date", JDict dd)] dd title_items
           eq_refl eq_refl eq_refl eq_refl eq_refl eq_refl).
Defined.

(* ================================================================= *)
(** ** The client: the gallery screen *)

Lemma url_ok_cases (i : list (string * json)) :
  Mobile.url_ok i = true ->
  (exists u, lookup i "url" JNull = JStr u)
  \/ truthy (lookup i "url" JNull) = false.
Proof.
  unfold Mobile.url_ok.
  destruct (lookup i "url" JNull) as [ | b | z | f | u | l | d];
    intro H; try (right; apply negb_true_iff; exact H).
  left. exists u. reflexivity.
Qed.

Lemma add_images_step (i : list (string * json)) (rest : list json)
  (grid : list Mobile.widget) :
  Mobile.url_ok i = true ->
  Mobile.add_images (JDict i :: rest) grid
  = Mobile.add_images rest
      (grid ++ map Mobile.AsyncImage
                 (filter truthy [lookup i "url" JNull])).
Proof.
  intro Hi. cbn [Mobile.add_images get filter map].
  destruct (url_ok_cases i Hi) as [[u Hu] | Hf].
  - rewrite Hu. destruct (truthy (JStr u)); cbn [Mobile.async_image map].
    + reflexivity.
    + rewrite app_nil_r. reflexivity.
  - rewrite Hf. cbn [map]. rewrite app_nil_r. reflexivity.
Qed.

Lemma add_images_of_objects (items : list (list (string * json))) :
  forallb Mobile.url_ok items = true ->
  forall grid,
    Mobile.add_images (map JDict items) grid
    = (grid ++ map Mobile.AsyncImage
                 (filter truthy (map (fun i => lookup i "url" JNull) items)),
       Return tt).
Proof.
  induction items as [ | i items IH]; intros Hok grid.
  - simpl. rewrite app_nil_r. reflexivity.
  - simpl in Hok. apply andb_true_iff in Hok as [Hi Hok].
    change (map JDict (i :: items)) with (JDict i :: map JDict items).
    rewrite (add_images_step i _ grid Hi), (IH Hok).
    rewrite <- app_assoc, <- map_app, <- filter_app. reflexivity.
Qed.

(** X15 -- [GalleryScreen]'s [on_success].  For an answer that is a list
    of objects each of whose "url" is a string or is falsy, the grid gets
    one image per object with a non-empty "url", in the order of the list;
    objects without a "url", or with a null or empty one, are skipped.  An
    answer that is not a list (the error object of the backend, a string)
    adds nothing.  The loop stops with an exception at the first element
    that is not an object ([AttributeError]) or whose "url" is truthy
    without being a string ([ValueError], from Kivy); the images of the
    elements before it stay in the grid, the elements after it are not
    looked at. *)
Theorem gallery_screen_images (grid : list Mobile.widget) :
  (forall items : list (list (string * json)),
     forallb Mobile.url_ok items = true ->
     Mobile.gallery_on_success (JList (map JDict items)) grid
     = (grid ++ map Mobile.AsyncImage
                  (filter truthy
                     (map (fun i => lookup i "url" JNull) items)),
        Return tt))
  /\ (forall result,
        match result with JList _ => False | _ => True end ->
        Mobile.gallery_on_success result grid = (grid, Return tt))
  /\ (forall (pre : list (list (string * json))) (bad : json)
             (post : list json),
        forallb Mobile.url_ok pre = true ->
        match bad with
        | JDict i => Mobile.url_ok i = false
        | _ => True
        end ->
        Mobile.gallery_on_success (JList (map JDict pre ++ bad :: post)) grid
        = (grid ++ map Mobile.AsyncImage
                     (filter truthy
                        (map (fun i => lookup i "url" JNull) pre)),
           Raise
             match bad with
             | JDict _ => ValueError "AsyncImage.source accept only str"
             | _ =>
                 AttributeError ("'" ++ type_name bad
                                 ++ "' object has no attribute 'get'")
             end)).
Proof.
  repeat split.
  - intros items Hok. apply add_images_of_objects. exact Hok.
  - intros result Hkind. destruct result; try reflexivity. contradiction.
  - intros pre bad post Hpre Hbad. unfold Mobile.gallery_on_success.
    revert grid Hpre. induction pre as [ | i pre IH]; intros grid Hpre.
    + simpl. rewrite app_nil_r.
      destruct bad as [ | b | z | f | u | l | d]; try reflexivity.
      simpl. unfold Mobile.url_ok in Hbad.
      destruct (lookup d "url" JNull) as [ | b | z | f | u | l | d'];
        simpl in Hbad |- *; try discriminate;
        apply negb_false_iff in Hbad; rewrite Hbad; reflexivity.
    + simpl in Hpre. apply andb_true_iff in Hpre as [Hi Hpre].
      change (map JDict (i :: pre) ++ bad :: post)
        with (JDict i :: (map JDict pre ++ bad :: post)).
      rewrite (add_images_step i _ grid Hi), (IH _ Hpre).
      rewrite <- app_assoc, <- map_app, <- filter_app. reflexivity.
Qed.



Lemma gallery_screen_images_witness :
  Mobile.gallery_on_success
    (JList [JDict [("key", JStr "a.jpg"); ("url", JStr "https://x/a")];
            JDict [("key", JStr "b.jpg"); ("url", JStr "")];
            JDict [("key", JStr "c.jpg"); ("url", JInt 5)];
            JDict [("key", JStr "d.jpg"); ("url", JStr "https://x/d")]])
    []
  = ([Mobile.AsyncImage (JStr "https://x/a")],
     Raise (ValueError "AsyncImage.source accept only str")).
Proof.
  exact (proj2 (proj2 (gallery_screen_images []))
           [[("key", JStr "a.jpg"); ("url", JStr "https://x/a")];
            [("key", JStr "b.jpg"); ("url", JStr "")]]
           (JDict [("key", JStr "c.jpg"); ("url", JInt 5)])
           [JDict [("key", JStr "d.jpg"); ("url", JStr "https://x/d")]]
           eq_refl eq_refl).
Defined.

(* ================================================================= *)
(** ** The client: the calendar screen *)




Example calendar_labels_computed :
  let str_other := fun _ : json => "?"%string in
  Mobile.load_events str_other
    (JList [JDict [("title", JStr ""); ("start", JStr "2024-05-01");
                   ("end", JNull)];
            JDict [("start", JInt 7); ("end", JStr "")]])
    []
  = ([Mobile.Label (Mobile.newline ++ "Start: 2024-05-01"
                    ++ Mobile.newline ++ "End: N/A")%string;
      Mobile.Label ("(Untitled)" ++ Mobile.newline ++ "Start: 7"
                    ++ Mobile.newline ++ "End: N/A")%string],
     Return tt).
Proof. reflexivity. Qed.

(* ================================================================= *)
(** ** The client: navigation *)

Lemma menu_targets (text screen_name : string) :
  dict_get text Mobile.buttons = Some screen_name ->
  In screen_name ["gallery"; "calendar"; "payments"; "notifications";
                  "about"]%string.
Proof.
  unfold Mobile.buttons. cbn [dict_get].
  repeat match goal with
         | |- context [String.eqb text ?k] => destruct (String.eqb text k)
         end;
    intro H; try discriminate; injection H as <-; simpl; tauto.
Qed.

(** What holds of the screen manager all along a session. *)
Lemma navigation_step (sm : Mobile.ScreenManager) (t : Mobile.tap)
  (name : string) :
  Mobile.screens sm = Mobile.screens Mobile.build ->
  Mobile.current sm = Some name ->
  In name (Mobile.screens Mobile.build) ->
  exists sm' name',
    Mobile.on_release sm t = Some sm'
    /\ Mobile.screens sm' = Mobile.screens Mobile.build
    /\ Mobile.current sm' = Some name'
    /\ In name' (Mobile.screens Mobile.build).
Proof.
  intros Hs Hc Hin. unfold Mobile.on_release. rewrite Hc.
  assert (Hset : forall d target,
             In target (Mobile.screens Mobile.build) ->
             exists sm',
               Mobile.set_current (Mobile.set_transition sm d) target
               = Some sm'
               /\ Mobile.screens sm' = Mobile.screens Mobile.build
               /\ Mobile.current sm' = Some target).
  { intros d target Ht. unfold Mobile.set_current, Mobile.set_transition.
    cbn [Mobile.screens]. rewrite Hs.
    assert (He : existsb (String.eqb target) (Mobile.screens Mobile.build)
                 = true).
    { apply existsb_exists. exists target. split; [exact Ht | ].
      apply String.eqb_refl. }
    rewrite He. eexists. repeat split. }
  assert (Hstay : exists sm' name',
             Some sm = Some sm'
             /\ Mobile.screens sm' = Mobile.screens Mobile.build
             /\ Mobile.current sm' = Some name'
             /\ In name' (Mobile.screens Mobile.build))
    by (exists sm, name; auto).
  assert (Hhome : In "home"%string (Mobile.screens Mobile.build))
    by (simpl; tauto).
  assert (Hback : exists sm' name',
             Mobile.go_home sm = Some sm'
             /\ Mobile.screens sm' = Mobile.screens Mobile.build
             /\ Mobile.current sm' = Some name'
             /\ In name' (Mobile.screens Mobile.build)).
  { destruct (Hset "right"%string "home"%string Hhome) as (sm' & E & Hs' & Hc').
    exists sm', "home"%string. auto. }
  destruct t as [text | ].
  - destruct (String.eqb name "home") eqn:Hn.
    + apply String.eqb_eq in Hn. subst name.
      destruct (dict_get text Mobile.buttons) as [target | ] eqn:Hb;
        [ | exact Hstay].
      assert (Ht : In target (Mobile.screens Mobile.build)).
      { apply menu_targets in Hb. simpl in Hb |- *. tauto. }
      destruct (Hset "left"%string target Ht) as (sm' & E & Hs' & Hc').
      exists sm', target. auto.
    + simpl in Hin.
      destruct Hin as [<- | [<- | [<- | [<- | [<- | [<- | []]]]]]];
        try discriminate; exact Hstay.
  - simpl in Hin.
    destruct Hin as [<- | [<- | [<- | [<- | [<- | [<- | []]]]]]];
      first [exact Hstay | exact Hback].
Qed.

(** X18 -- navigation in the client.  Starting from the screen manager
    that [RobertaApp.build] returns, whatever buttons the user releases
    and in whatever order, no release raises: every target of the home
    menu and of the "< Back" buttons is a screen that [build] registered,
    and the screen shown is always one of the six.  After any session a
    "< Back" leads to the home screen. *)
Theorem navigation_never_fails (taps : list Mobile.tap) :
  exists sm name,
    Mobile.session Mobile.build taps = Some sm
    /\ Mobile.screens sm
       = ["home"; "gallery"; "calendar"; "payments"; "notifications";
          "about"]%string
    /\ Mobile.current sm = Some name
    /\ In name (Mobile.screens sm)
    /\ exists sm',
         Mobile.on_release sm Mobile.Back = Some sm'
         /\ Mobile.current sm' = Some "home"%string.
Proof.
  assert (Hgen : forall taps sm name,
             Mobile.screens sm = Mobile.screens Mobile.build ->
             Mobile.current sm = Some name ->
             In name (Mobile.screens Mobile.build) ->
             exists sm' name',
               Mobile.session sm taps = Some sm'
               /\ Mobile.screens sm' = Mobile.screens Mobile.build
               /\ Mobile.current sm' = Some name'
               /\ In name' (Mobile.screens Mobile.build)).
  { clear taps. induction taps as [ | t taps IH]; intros sm name Hs Hc Hin.
    - exists sm, name. simpl. auto.
    - destruct (navigation_step sm t name Hs Hc Hin)
        as (sm1 & name1 & Hr & Hs1 & Hc1 & Hin1).
      destruct (IH sm1 name1 Hs1 Hc1 Hin1)
        as (sm' & name' & Hsess & Hs' & Hc' & Hin').
      exists sm', name'. simpl. rewrite Hr. auto. }
  destruct (Hgen taps Mobile.build "home"%string eq_refl eq_refl)
    as (sm & name & Hsess & Hs & Hc & Hin); [simpl; tauto | ].
  exists sm, name. split; [exact Hsess | ]. split; [exact Hs | ].
  split; [exact Hc | ]. split; [rewrite Hs; exact Hin | ].
  unfold Mobile.on_release. rewrite Hc.
  simpl in Hin.
  destruct Hin as [<- | [<- | [<- | [<- | [<- | [<- | []]]]]]];
    try (exists sm; split; [reflexivity | exact Hc]);
    unfold Mobile.go_home, Mobile.set_current, Mobile.set_transition;
    cbn [Mobile.screens]; rewrite Hs; cbn; eexists; split; reflexivity.
Qed.

Example navigation_session :
  option_map
    (fun sm => (Mobile.current sm, Mobile.transition sm))
    (Mobile.session Mobile.build
       [Mobile.Menu "Calendar"; Mobile.Menu "Gallery"; Mobile.Back;
        Mobile.Back; Mobile.Menu "Settings"; Mobile.Menu "About"])
  = Some (Some "about"%string, "left"%string).
Proof. reflexivity. Qed.
